(** * Notification dispatch subsystem of the school-management backend

    A shallow embedding of [modules/notification/notification.service.ts]
    (recipient resolution, device registration, enqueue, job history) and of
    the delivery worker registered with [notificationQueue.process], together
    with the properties the design document states about them.

    Conventions of the embedding:
    - a string is the sequence of the UTF-8 bytes of the JavaScript string;
    - an awaited call that may reject returns a sum [Foreign + A];
    - a service function returns a [Completion]: a returned value or a
      thrown value;
    - the database is a record of tables (lists of rows, in table order);
      the queue backend and the push gateways are external and are taken as
      records of functions. *)

From Stdlib Require Import List String Ascii Bool ZArith NArith Lia DecimalString.
Import ListNotations.
Open Scope string_scope.

(** ** JavaScript strings *)

Module Js.

(** [c.toLowerCase()] on the ASCII range. *)
Definition lower_ascii (c : ascii) : ascii :=
  let n := nat_of_ascii c in
  if andb (Nat.leb 65 n) (Nat.leb n 90) then ascii_of_nat (n + 32) else c.

Fixpoint toLowerCase (s : string) : string :=
  match s with
  | EmptyString => EmptyString
  | String c rest => String (lower_ascii c) (toLowerCase rest)
  end.

(** [s.includes(sub)] *)
Fixpoint includes (s sub : string) : bool :=
  if String.prefix sub s then true
  else match s with
       | EmptyString => false
       | String _ rest => includes rest sub
       end.

(** Truthiness of a string: only the empty string is falsy. *)
Definition truthy (s : string) : bool := negb (s =? "").

(** Truthiness of an optional string ([undefined] is falsy). *)
Definition truthy_opt (s : option string) : bool :=
  match s with Some v => truthy v | None => false end.

(** [a || b] where [a] may be undefined and [b] is a string. *)
Definition or_else (a : option string) (b : string) : string :=
  match a with
  | Some v => if truthy v then v else b
  | None => b
  end.

(** Truthiness of an optional number: [undefined] and [0] are falsy. *)
Definition truthy_num (n : option Z) : bool :=
  match n with Some v => negb (v =? 0)%Z | None => false end.

(** Decimal rendering of a non-negative integer inside a template. *)
Definition of_N (n : N) : string := NilZero.string_of_uint (N.to_uint n).

(** [xs.includes(x)] on an array of strings. *)
Definition array_includes (xs : list string) (x : string) : bool :=
  existsb (String.eqb x) xs.

(** A [Set<string>]: elements in insertion order, each once. *)
Definition StringSet := list string.

Definition set_add (s : StringSet) (x : string) : StringSet :=
  if array_includes s x then s else (s ++ [x])%list.

(** [xs.forEach((x) => s.add(x))] *)
Definition set_add_all (s : StringSet) (xs : list string) : StringSet :=
  fold_left set_add xs s.

End Js.

(** ** Thrown values *)

(** What a rejected promise of an external library (database client, queue
    client, HTTP client) can carry. *)
Inductive Foreign : Type :=
| FError (name message : string) (code : option string)
| FString (s : string)
| FUndefined
| FNull.

(** The error classes of [utils/errors] used by the service. *)
Inductive AppErrorClass : Type := ConflictError | NotFoundError.

Inductive Thrown : Type :=
| AppError (cls : AppErrorClass) (message : string)
| Other (f : Foreign).

Inductive Completion (A : Type) : Type :=
| Return (a : A)
| Throw (t : Thrown).
Arguments Return {A} a.
Arguments Throw {A} t.

Module ForeignOps.

(** [error?.message] *)
Definition message (e : Foreign) : option string :=
  match e with
  | FError _ m _ => Some m
  | _ => None
  end.

(** [error?.code] *)
Definition code (e : Foreign) : option string :=
  match e with
  | FError _ _ c => c
  | _ => None
  end.

(** [error?.name] *)
Definition name (e : Foreign) : option string :=
  match e with
  | FError n _ _ => Some n
  | _ => None
  end.

(** [String(error)]; for an Error object this is [Error.prototype.toString]. *)
Definition toString (e : Foreign) : string :=
  match e with
  | FError n m _ =>
      if n =? "" then m
      else if m =? "" then n
      else n ++ ": " ++ m
  | FString s => s
  | FUndefined => "undefined"
  | FNull => "null"
  end.

(** [error?.message || String(error)] *)
Definition message_or_string (e : Foreign) : string :=
  Js.or_else (message e) (toString e).

End ForeignOps.

(** A small error monad for sequences of awaited external calls. *)
Definition Await (A : Type) : Type := (Foreign + A)%type.

Definition bind {A B : Type} (m : Await A) (k : A -> Await B) : Await B :=
  match m with
  | inl e => inl e
  | inr a => k a
  end.

Notation "x <- m ;; k" := (bind m (fun x => k))
  (at level 61, m at next level, right associativity).

(** ** Data model *)

Record Role := { role_name : string }.

Record User := {
  user_id : string;
  user_role : Role;
  user_isActive : bool
}.

Record TeacherProfile := { teacher_userId : string }.
Record ParentProfile := { parent_userId : string }.

Record TeacherClass := {
  tc_classId : string;
  tc_teacher : TeacherProfile
}.

Record Student := {
  student_classId : string;
  student_parent : option ParentProfile;
  student_isActive : bool
}.

Inductive Platform : Type := IOS | ANDROID | WEB.

Record DeviceToken := {
  dt_userId : string;
  dt_token : string;
  dt_platform : Platform;
  dt_isActive : bool;
  dt_lastUsedAt : option Z
}.

Record Database := {
  users : list User;
  teacherClasses : list TeacherClass;
  students : list Student;
  deviceTokens : list DeviceToken
}.

(** The database client: the tables, and the error every query rejects with
    while the database is unreachable. *)
Record Prisma := {
  fault : option Foreign;
  tables : Database
}.

Definition connected (db : Database) : Prisma :=
  {| fault := None; tables := db |}.

(** [prisma.<table>.findMany({ where })] *)
Definition findMany {Row : Type} (p : Prisma) (table : Database -> list Row)
    (where_ : Row -> bool) : Await (list Row) :=
  match fault p with
  | Some e => inl e
  | None => inr (filter where_ (table (tables p)))
  end.

(** ** Requests *)

Record Recipients := {
  userIds : option (list string);
  roles : option (list string);
  classIds : option (list string)
}.

Record SendNotificationInput := {
  sn_title : string;
  sn_message : string;
  sn_recipients : Recipients;
  sn_data : option (list (string * string))
}.

Record RegisterDeviceInput := {
  rd_userId : string;
  rd_deviceToken : string;
  rd_platform : Platform
}.

Record ListNotificationsQuery := { limit : option Z }.

(** [xs && xs.length > 0] as the list to look up, the empty list when the
    guard is false. *)
Definition present (xs : option (list string)) : bool :=
  match xs with
  | Some (_ :: _) => true
  | _ => false
  end.

Definition listed (xs : option (list string)) : list string :=
  match xs with Some l => l | None => [] end.

(** ** Recipient resolver *)

Definition resolveRecipientUserIds (prisma : Prisma) (payload : SendNotificationInput)
  : Await (list string) :=
  let r := sn_recipients payload in
  let s0 : Js.StringSet := [] in
  s1 <- (if present (userIds r) then
           found <- findMany prisma users
                      (fun u => Js.array_includes (listed (userIds r)) (user_id u)) ;;
           inr (Js.set_add_all s0 (map user_id found))
         else inr s0) ;;
  s2 <- (if present (roles r) then
           found <- findMany prisma users
                      (fun u => Js.array_includes (listed (roles r))
                                  (role_name (user_role u))) ;;
           inr (Js.set_add_all s1 (map user_id found))
         else inr s1) ;;
  s3 <- (if present (classIds r) then
           teachers <- findMany prisma teacherClasses
                         (fun t => Js.array_includes (listed (classIds r)) (tc_classId t)) ;;
           let s := Js.set_add_all s2
                      (map (fun t => teacher_userId (tc_teacher t)) teachers) in
           parents <- findMany prisma students
                        (fun st => Js.array_includes (listed (classIds r))
                                     (student_classId st)) ;;
           inr (fold_left
                  (fun acc p =>
                     match student_parent p with
                     | Some par => Js.set_add acc (parent_userId par)
                     | None => acc
                     end)
                  parents s)
         else inr s2) ;;
  inr s3.

(** ** Device token store *)

Definition same_key (userId token : string) (row : DeviceToken) : bool :=
  (dt_userId row =? userId) && (dt_token row =? token).

(** The row selected by a unique index is the first (and, under the unique
    constraint, the only) row with that key. *)
Fixpoint update_first {Row : Type} (sel : Row -> bool) (upd : Row -> Row)
    (rows : list Row) : list Row :=
  match rows with
  | [] => []
  | r :: rest => if sel r then upd r :: rest else r :: update_first sel upd rest
  end.

Definition with_deviceTokens (p : Prisma) (rows : list DeviceToken) : Prisma :=
  {| fault := fault p;
     tables := {| users := users (tables p);
                  teacherClasses := teacherClasses (tables p);
                  students := students (tables p);
                  deviceTokens := rows |} |}.

(** [prisma.deviceToken.upsert({ where: { userId_token }, update, create })]:
    the stored row and the client after the write. A rejected write leaves
    the table as it was. *)
Definition upsert (p : Prisma) (userId token : string)
    (update : DeviceToken -> DeviceToken) (create : DeviceToken)
  : Await DeviceToken * Prisma :=
  match fault p with
  | Some e => (inl e, p)
  | None =>
      let rows := deviceTokens (tables p) in
      match find (same_key userId token) rows with
      | Some old =>
          (inr (update old),
           with_deviceTokens p (update_first (same_key userId token) update rows))
      | None => (inr create, with_deviceTokens p (rows ++ [create])%list)
      end
  end.

Section DeviceRegistration.

(** The schema of the [DeviceToken] table is not part of the sources read
    here: the value a freshly created row gets in [lastUsedAt], which the
    [create] branch leaves to the column default, is a parameter (a
    function of the insertion time; [None] for a column without default). *)
Variable lastUsedAt_default : Z -> option Z.

(** [now] is the reading of [new Date()] during the call. *)
Definition registerDevice (prisma : Prisma) (now : Z)
    (input : RegisterDeviceInput) (requesterUserId : string)
  : Completion DeviceToken * Prisma :=
  if negb (rd_userId input =? requesterUserId) then
    (Throw (AppError ConflictError "User ID does not match authenticated user"),
     prisma)
  else
    let '(res, prisma') :=
      upsert prisma (rd_userId input) (rd_deviceToken input)
        (fun row =>
           {| dt_userId := dt_userId row;
              dt_token := dt_token row;
              dt_platform := rd_platform input;
              dt_isActive := true;
              dt_lastUsedAt := Some now |})
        {| dt_userId := rd_userId input;
           dt_token := rd_deviceToken input;
           dt_platform := rd_platform input;
           dt_isActive := true;
           dt_lastUsedAt := lastUsedAt_default now |} in
    match res with
    | inl e => (Throw (Other e), prisma')
    | inr deviceToken => (Return deviceToken, prisma')
    end.

End DeviceRegistration.

(** [getDeviceTokensForUsers] *)
Definition getDeviceTokensForUsers (prisma : Prisma) (ids : list string)
  : Await (list DeviceToken) :=
  findMany prisma deviceTokens
    (fun row => Js.array_includes ids (dt_userId row) && dt_isActive row).

(** ** Queue *)

Record NotificationJobData := {
  jd_title : string;
  jd_message : string;
  jd_data : option (list (string * string));
  jd_recipientUserIds : list string;
  jd_initiatedBy : string
}.

Record Job := {
  job_id : string;
  job_data : NotificationJobData;
  job_timestamp : Z;
  job_finishedOn : option Z;
  job_failedReason : option string
}.

Inductive JobStatus : Type := completed | failed | waiting | active | delayed.

(** The queue client, an external library: what [add] and [getJobs] answer.
    Both may reject (the backend may be unreachable). *)
Record Queue := {
  add : NotificationJobData -> Await Job;
  getJobs : list JobStatus -> Z -> Z -> bool -> Await (list Job)
}.

(** [defaultJobOptions] of the queue. *)
Definition defaultJobOptions_attempts : nat := 3.

(** ** Enqueue *)

Record EnqueueResult := {
  queued : bool;
  recipientCount : nat;
  warning : option string
}.

Definition code_is (error : Foreign) (c : string) : bool :=
  Js.or_else (ForeignOps.code error) "" =? c.

Definition isRedisError (error : Foreign) : bool :=
  let errorMessage :=
    Js.toLowerCase (Js.or_else (Some (ForeignOps.message_or_string error)) "") in
  let errorName := Js.or_else (ForeignOps.name error) "" in
  let errorString := Js.toLowerCase (ForeignOps.toString error) in
  Js.includes errorMessage "econnrefused" ||
  Js.includes errorMessage "redis" ||
  Js.includes errorMessage "connection" ||
  Js.includes errorMessage "connect econnrefused" ||
  Js.includes errorMessage "connect" ||
  code_is error "ECONNREFUSED" ||
  code_is error "ENOTFOUND" ||
  code_is error "ETIMEDOUT" ||
  code_is error "ECONNRESET" ||
  (errorName =? "Error") ||
  Js.includes errorString "redis" ||
  Js.includes errorString "connection".

Definition redis_unavailable_warning : string :=
  "Notification queue unavailable. Please ensure Redis is running on localhost:6379. Notification was not sent.".

Definition enqueueNotification (prisma : Prisma) (notificationQueue : Queue)
    (input : SendNotificationInput) (initiatedBy : string)
  : Completion EnqueueResult :=
  match resolveRecipientUserIds prisma input with
  | inl error =>
      Throw (AppError NotFoundError
               ("Failed to resolve recipients: " ++ ForeignOps.message_or_string error))
  | inr recipientUserIds =>
      if (List.length recipientUserIds =? 0)%nat then
        Throw (AppError NotFoundError "No recipients found for the provided criteria")
      else
        let jobData :=
          {| jd_title := sn_title input;
             jd_message := sn_message input;
             jd_data := sn_data input;
             jd_recipientUserIds := recipientUserIds;
             jd_initiatedBy := initiatedBy |} in
        match add notificationQueue jobData with
        | inr _ =>
            Return {| queued := true;
                      recipientCount := List.length recipientUserIds;
                      warning := None |}
        | inl error =>
            if isRedisError error then
              Return {| queued := false;
                        recipientCount := List.length recipientUserIds;
                        warning := Some redis_unavailable_warning |}
            else
              Return {| queued := false;
                        recipientCount := List.length recipientUserIds;
                        warning :=
                          Some ("Notification queue error: "
                                ++ ForeignOps.message_or_string error
                                ++ ". Please check Redis connection.") |}
        end
  end.

(** ** Job history *)

Record NotificationItem := {
  it_id : string;
  it_state : string;
  it_failedReason : option string;
  it_title : string;
  it_message : string;
  it_recipientUserIds : list string;
  it_initiatedBy : string;
  it_timestamp : Z;
  it_finishedOn : option Z
}.

(** The callback of [jobs.map] in [listNotifications]. *)
Definition toItem (job : Job) : NotificationItem :=
  let data := job_data job in
  {| it_id := job_id job;
     it_state := if Js.truthy_num (job_finishedOn job) then "completed" else "failed";
     it_failedReason :=
       if Js.truthy_opt (job_failedReason job) then job_failedReason job else None;
     it_title := jd_title data;
     it_message := jd_message data;
     it_recipientUserIds := jd_recipientUserIds data;
     it_initiatedBy := jd_initiatedBy data;
     it_timestamp := job_timestamp job;
     it_finishedOn := job_finishedOn job |}.

(** [query.limit || 50] *)
Definition effective_limit (query : ListNotificationsQuery) : Z :=
  match limit query with
  | Some n => if (n =? 0)%Z then 50%Z else n
  | None => 50%Z
  end.

Definition listNotifications (notificationQueue : Queue)
    (requesterRole requesterUserId : string) (query : ListNotificationsQuery)
  : Completion (list NotificationItem) :=
  let limit := effective_limit query in
  match getJobs notificationQueue [completed; failed] 0%Z (limit - 1)%Z false with
  | inl e => Throw (Other e)
  | inr jobs =>
      let items := map toItem jobs in
      if requesterRole =? "SCHOOL_ADMIN" then Return items
      else Return (filter (fun item =>
                             Js.array_includes (it_recipientUserIds item) requesterUserId)
                          items)
  end.

(** ** Delivery worker *)

(** The part of [env] the providers read; a missing variable is [""]. *)
Record Env := {
  oneSignalAppId : string;
  oneSignalRestApiKey : string;
  fcmServerKey : string;
  fcmProjectId : string
}.

Record OneSignalConfig := { appId : string; restApiKey : string }.
Record FcmConfig := { serverKey : string; projectId : string }.

Definition getOneSignalConfig (env : Env) : OneSignalConfig :=
  {| appId := oneSignalAppId env; restApiKey := oneSignalRestApiKey env |}.

Definition getFcmConfig (env : Env) : FcmConfig :=
  {| serverKey := fcmServerKey env; projectId := fcmProjectId env |}.

Record OneSignalNotification := {
  os_contents_en : string;
  os_headings_en : string;
  os_include_player_ids : list string;
  os_data : option (list (string * string))
}.

Record FcmRequest := {
  fcm_url : string;
  fcm_authorization : string;
  fcm_registration_ids : list string;
  fcm_notification_title : string;
  fcm_notification_body : string;
  fcm_data : option (list (string * string))
}.

Record HttpResponse := {
  res_ok : bool;
  res_status : N;
  res_text : string
}.

(** The two push gateways, external: what a request to each answers. *)
Record Gateways := {
  createNotification : OneSignalConfig -> OneSignalNotification -> Await unit;
  fetch : FcmRequest -> Await HttpResponse
}.

Record ProviderResult := {
  provider : string;
  success : bool;
  reason : option string
}.

(** What a run of the worker does that is visible outside it: which
    provider function it entered, and which gateway it sent a request to. *)
Inductive Event : Type :=
| Entered (provider : string) (tokens : list string)
| Requested (provider : string) (tokens : list string).

Definition sendViaOneSignal (env : Env) (gw : Gateways)
    (data : NotificationJobData) (tokens : list string)
  : Await ProviderResult * list Event :=
  let cfg := getOneSignalConfig env in
  if negb (Js.truthy (appId cfg)) || negb (Js.truthy (restApiKey cfg)) then
    (inr {| provider := "onesignal"; success := false; reason := Some "Not configured" |},
     [Entered "onesignal" tokens])
  else
    let sent :=
      createNotification gw cfg
        {| os_contents_en := jd_message data;
           os_headings_en := jd_title data;
           os_include_player_ids := tokens;
           os_data := jd_data data |} in
    (_ <- sent ;;
     inr {| provider := "onesignal"; success := true; reason := None |},
     [Entered "onesignal" tokens; Requested "onesignal" tokens]).

Definition sendViaFcm (env : Env) (gw : Gateways)
    (data : NotificationJobData) (tokens : list string)
  : Await ProviderResult * list Event :=
  let cfg := getFcmConfig env in
  if negb (Js.truthy (serverKey cfg)) then
    (inr {| provider := "fcm"; success := false; reason := Some "Not configured" |},
     [Entered "fcm" tokens])
  else
    let url := "https://fcm.googleapis.com/fcm/send" in
    let answered :=
      fetch gw
        {| fcm_url := url;
           fcm_authorization := "key=" ++ serverKey cfg;
           fcm_registration_ids := tokens;
           fcm_notification_title := jd_title data;
           fcm_notification_body := jd_message data;
           fcm_data := jd_data data |} in
    (res <- answered ;;
     if negb (res_ok res) then
       inl (FError "Error"
              ("FCM send failed: " ++ Js.of_N (res_status res) ++ " " ++ res_text res)
              None)
     else inr {| provider := "fcm"; success := true; reason := None |},
     [Entered "fcm" tokens; Requested "fcm" tokens]).

Inductive JobReturn : Type :=
| NoTokens
| Sent (results : list ProviderResult).

(** One run of the processor on a job: how the handler ends (a returned
    value completes the job; a rejection fails it and hands it to the
    queue's retry policy), the local [results] array when it ends, and the
    events of the run. *)
Record Run := {
  completion : Await JobReturn;
  run_results : list ProviderResult;
  run_events : list Event
}.

(** [(err as Error).message] in a catch block: the property read throws a
    [TypeError] when the caught value is [null] or [undefined] (the text of
    the error is the engine's), and is [undefined] for a string. *)
Definition caught_message (err : Foreign) : Foreign + option string :=
  match err with
  | FError _ m _ => inr (Some m)
  | FString _ => inr None
  | FUndefined =>
      inl (FError "TypeError"
             "Cannot read properties of undefined (reading 'message')" None)
  | FNull =>
      inl (FError "TypeError"
             "Cannot read properties of null (reading 'message')" None)
  end.

(** The handler given to [notificationQueue.process]. An error thrown
    inside the first catch block leaves the handler before FCM is tried;
    one thrown inside the second replaces the error that was to be
    rethrown. In both cases the [push] whose argument threw did not run. *)
Definition process (prisma : Prisma) (env : Env) (gw : Gateways) (job : Job) : Run :=
  let data := job_data job in
  match getDeviceTokensForUsers prisma (jd_recipientUserIds data) with
  | inl e => {| completion := inl e; run_results := []; run_events := [] |}
  | inr tokens =>
      let activeTokens := map dt_token tokens in
      if (List.length activeTokens =? 0)%nat then
        {| completion := inr NoTokens; run_results := []; run_events := [] |}
      else
        let results : list ProviderResult := [] in
        let '(os, ev1) := sendViaOneSignal env gw data activeTokens in
        let afterOneSignal : Foreign + list ProviderResult :=
          match os with
          | inr osResult => inr (results ++ [osResult])%list
          | inl err =>
              match caught_message err with
              | inr message =>
                  inr (results ++ [{| provider := "onesignal"; success := false;
                                      reason := message |}])%list
              | inl thrown => inl thrown
              end
          end in
        match afterOneSignal with
        | inl thrown =>
            {| completion := inl thrown; run_results := results; run_events := ev1 |}
        | inr results =>
            let '(fcm, ev2) := sendViaFcm env gw data activeTokens in
            match fcm with
            | inr fcmResult =>
                let results := (results ++ [fcmResult])%list in
                {| completion := inr (Sent results);
                   run_results := results;
                   run_events := (ev1 ++ ev2)%list |}
            | inl err =>
                match caught_message err with
                | inr message =>
                    let results :=
                      (results ++ [{| provider := "fcm"; success := false;
                                      reason := message |}])%list in
                    {| completion := inl err;
                       run_results := results;
                       run_events := (ev1 ++ ev2)%list |}
                | inl thrown =>
                    {| completion := inl thrown;
                       run_results := results;
                       run_events := (ev1 ++ ev2)%list |}
                end
            end
        end
  end.

(** The queue marks a job failed exactly when its handler rejects. *)
Definition marked_failed (r : Run) : bool :=
  match completion r with
  | inl _ => true
  | inr _ => false
  end.

(** A failed attempt is retried while attempts remain. *)
Definition eligible_for_retry (attemptsMade : nat) (r : Run) : bool :=
  marked_failed r && (S attemptsMade <? defaultJobOptions_attempts)%nat.

(** ** Vocabulary of the statements *)

(** The four ways a user id is reached by a recipient filter, read off the
    [where] clauses of the resolver. *)
Definition listed_user (db : Database) (r : Recipients) (u : string) : Prop :=
  exists usr, In usr (users db) /\ user_id usr = u /\ In u (listed (userIds r)).

Definition holds_listed_role (db : Database) (r : Recipients) (u : string) : Prop :=
  exists usr, In usr (users db) /\ user_id usr = u /\
              In (role_name (user_role usr)) (listed (roles r)).

Definition teaches_listed_class (db : Database) (r : Recipients) (u : string) : Prop :=
  exists t, In t (teacherClasses db) /\ teacher_userId (tc_teacher t) = u /\
            In (tc_classId t) (listed (classIds r)).

Definition guardian_in_listed_class (db : Database) (r : Recipients) (u : string) : Prop :=
  exists st par, In st (students db) /\ student_parent st = Some par /\
                 parent_userId par = u /\
                 In (student_classId st) (listed (classIds r)).

Definition reachable (db : Database) (r : Recipients) (u : string) : Prop :=
  listed_user db r u \/ holds_listed_role db r u \/
  teaches_listed_class db r u \/ guardian_in_listed_class db r u.

(** The ids each lookup of the resolver feeds into the set. *)
Definition ids_by_userIds (db : Database) (r : Recipients) : list string :=
  map user_id
    (filter (fun u => Js.array_includes (listed (userIds r)) (user_id u)) (users db)).

Definition ids_by_roles (db : Database) (r : Recipients) : list string :=
  map user_id
    (filter (fun u => Js.array_includes (listed (roles r)) (role_name (user_role u)))
            (users db)).

Definition ids_by_class_teachers (db : Database) (r : Recipients) : list string :=
  map (fun t => teacher_userId (tc_teacher t))
    (filter (fun t => Js.array_includes (listed (classIds r)) (tc_classId t))
            (teacherClasses db)).

Definition guardian_ids (sts : list Student) : list string :=
  flat_map (fun st => match student_parent st with
                      | Some par => [parent_userId par]
                      | None => []
                      end) sts.

Definition ids_by_class_guardians (db : Database) (r : Recipients) : list string :=
  guardian_ids
    (filter (fun st => Js.array_includes (listed (classIds r)) (student_classId st))
            (students db)).

(** The key of a device-token row under the unique index [userId_token]. *)
Definition key_of (row : DeviceToken) : string * string :=
  (dt_userId row, dt_token row).

Definition unique_keys (rows : list DeviceToken) : Prop :=
  NoDup (map key_of rows).

Definition rows_with_key (userId token : string) (rows : list DeviceToken)
  : list DeviceToken :=
  filter (same_key userId token) rows.

(** A stamp advances to [t]: there was none, or an earlier one. *)
Definition advances_to (old : option Z) (t : Z) : Prop :=
  match old with
  | Some v => (v < t)%Z
  | None => True
  end.

(** The [jobData] that [enqueueNotification] hands to the queue. *)
Definition jobData_for (input : SendNotificationInput) (recipientUserIds : list string)
    (initiatedBy : string) : NotificationJobData :=
  {| jd_title := sn_title input;
     jd_message := sn_message input;
     jd_data := sn_data input;
     jd_recipientUserIds := recipientUserIds;
     jd_initiatedBy := initiatedBy |}.

(** The node error codes of an unreachable backend that the enqueue path
    looks for. *)
Definition connectivity_codes : list string :=
  ["ECONNREFUSED"; "ENOTFOUND"; "ETIMEDOUT"; "ECONNRESET"].

(** A filter that lists role names and nothing else. *)
Definition only_roles (r : Recipients) : Prop :=
  listed (userIds r) = [] /\ listed (classIds r) = [].

(** The ids of the active users holding one of the roles [rs]. *)
Definition active_role_holders (db : Database) (rs : list string) : list string :=
  map user_id
    (filter (fun u => user_isActive u && Js.array_includes rs (role_name (user_role u)))
            (users db)).

(** ** Concrete data used by the examples *)

Module Fixture.

Definition parentRole : Role := {| role_name := "PARENT" |}.
Definition teacherRole : Role := {| role_name := "TEACHER" |}.

(** Class 9A: two teachers, three students, two of them siblings. *)
Definition school : Database :=
  {| users :=
       [ {| user_id := "t1"; user_role := teacherRole; user_isActive := true |};
         {| user_id := "t2"; user_role := teacherRole; user_isActive := true |};
         {| user_id := "g1"; user_role := parentRole; user_isActive := true |};
         {| user_id := "g2"; user_role := parentRole; user_isActive := false |} ];
     teacherClasses :=
       [ {| tc_classId := "class-9A"; tc_teacher := {| teacher_userId := "t1" |} |};
         {| tc_classId := "class-9A"; tc_teacher := {| teacher_userId := "t2" |} |} ];
     students :=
       [ {| student_classId := "class-9A";
            student_parent := Some {| parent_userId := "g1" |};
            student_isActive := true |};
         {| student_classId := "class-9A";
            student_parent := Some {| parent_userId := "g1" |};
            student_isActive := true |};
         {| student_classId := "class-9A";
            student_parent := Some {| parent_userId := "g2" |};
            student_isActive := true |} ];
     deviceTokens :=
       [ {| dt_userId := "g1"; dt_token := "tok-g1"; dt_platform := ANDROID;
            dt_isActive := true; dt_lastUsedAt := Some 100%Z |};
         {| dt_userId := "g2"; dt_token := "tok-g2"; dt_platform := IOS;
            dt_isActive := false; dt_lastUsedAt := Some 90%Z |} ] |}.

Definition toParents : SendNotificationInput :=
  {| sn_title := "Meeting";
     sn_message := "Tomorrow 5pm";
     sn_recipients := {| userIds := None; roles := Some ["PARENT"]; classIds := None |};
     sn_data := None |}.

Definition toParentsAndClass : SendNotificationInput :=
  {| sn_title := "Meeting";
     sn_message := "Tomorrow 5pm";
     sn_recipients :=
       {| userIds := None; roles := Some ["PARENT"]; classIds := Some ["class-9A"] |};
     sn_data := None |}.

(** A queue client whose backend refuses connections. *)
Definition refused : Foreign :=
  FError "Error" "connect ECONNREFUSED 127.0.0.1:6379" (Some "ECONNREFUSED").

Definition downQueue : Queue :=
  {| add := fun _ => inl refused;
     getJobs := fun _ _ _ _ => inl refused |}.

Definition meeting : NotificationJobData :=
  {| jd_title := "Meeting";
     jd_message := "Tomorrow 5pm";
     jd_data := None;
     jd_recipientUserIds := ["t1"; "t2"; "g1"; "g2"];
     jd_initiatedBy := "admin" |}.

Definition holiday : NotificationJobData :=
  {| jd_title := "Holiday";
     jd_message := "School closed on Friday";
     jd_data := None;
     jd_recipientUserIds := ["t1"; "t2"];
     jd_initiatedBy := "admin" |}.

(** A job that ended in the failed set, with its finish time and reason. *)
Definition failedJob : Job :=
  {| job_id := "7";
     job_data := meeting;
     job_timestamp := 1700000000000%Z;
     job_finishedOn := Some 1700000020000%Z;
     job_failedReason := Some "FCM send failed: 503 unavailable" |}.

Definition staffJob : Job :=
  {| job_id := "8";
     job_data := holiday;
     job_timestamp := 1700000100000%Z;
     job_finishedOn := None;
     job_failedReason := None |}.

(** A queue client with a history of two jobs. *)
Definition historyQueue : Queue :=
  {| add := fun data =>
       inr {| job_id := "9"; job_data := data; job_timestamp := 1700000200000%Z;
              job_finishedOn := None; job_failedReason := None |};
     getJobs := fun _ _ _ _ => inr [failedJob; staffJob] |}.

(** Only OneSignal is configured, and its gateway times out. *)
Definition oneSignalOnly : Env :=
  {| oneSignalAppId := "app-1";
     oneSignalRestApiKey := "key-1";
     fcmServerKey := "";
     fcmProjectId := "" |}.

Definition bothConfigured : Env :=
  {| oneSignalAppId := "app-1";
     oneSignalRestApiKey := "key-1";
     fcmServerKey := "server-key";
     fcmProjectId := "proj" |}.

Definition timedOut : Foreign :=
  FError "Error" "connect ETIMEDOUT" (Some "ETIMEDOUT").

Definition oneSignalDown : Gateways :=
  {| createNotification := fun _ _ => inl timedOut;
     fetch := fun _ => inr {| res_ok := true; res_status := 200%N; res_text := "" |} |}.

Definition meetingJob : Job :=
  {| job_id := "10";
     job_data := meeting;
     job_timestamp := 1700000300000%Z;
     job_finishedOn := None;
     job_failedReason := None |}.

Definition staffOnlyJob : Job :=
  {| job_id := "11";
     job_data := holiday;
     job_timestamp := 1700000400000%Z;
     job_finishedOn := None;
     job_failedReason := None |}.

Definition registerPhone : RegisterDeviceInput :=
  {| rd_userId := "g1"; rd_deviceToken := "tok-g1"; rd_platform := IOS |}.

Definition registerBrowser : RegisterDeviceInput :=
  {| rd_userId := "g1"; rd_deviceToken := "tok-g1"; rd_platform := WEB |}.

End Fixture.

(** * The rest of the notification module *)

(** ** Queue connection *)

(** [retryStrategy] of the queue's Redis options; [None] is [null] (stop). *)
Definition retryStrategy (times : Z) : option Z :=
  if (times >? 3)%Z then None else Some (Z.min (times * 100) 1000).

(** The listener of the queue's ['error'] event with the module-level flag
    [redisErrorLogged]: the lines it prints with [console.warn], and the
    flag afterwards. *)
Definition on_queue_error (redisErrorLogged : bool) : list string * bool :=
  if negb redisErrorLogged then
    ([ "⚠️  Redis connection failed. Notifications will not be queued until Redis is available.";
       "   To fix: Install and start Redis on localhost:6379";
       "   The server will continue running, but notifications will not be sent." ],
     true)
  else ([], redisErrorLogged).

(** The lines printed over a run of [n] error events, and the flag at its
    end. *)
Fixpoint on_queue_errors (n : nat) (redisErrorLogged : bool) : list string * bool :=
  match n with
  | O => ([], redisErrorLogged)
  | S m =>
      let '(lines, flag) := on_queue_error redisErrorLogged in
      let '(more, flag') := on_queue_errors m flag in
      ((lines ++ more)%list, flag')
  end.

(** ** Request schemas *)

(** Strings as JavaScript sees them, read off their UTF-8 bytes. *)
Module Unicode.

(** [s.length]: the number of UTF-16 code units, one for each character and
    two for a character outside the basic plane (a four-byte sequence);
    continuation bytes count for nothing. *)
Fixpoint length (s : string) : nat :=
  match s with
  | EmptyString => 0
  | String c rest =>
      let n := nat_of_ascii c in
      ((if (Nat.leb 128 n && Nat.ltb n 192)%bool then 0
        else if Nat.leb 240 n then 2 else 1) + length rest)%nat
  end.

End Unicode.

(** [parseInt(val, 10)]: leading white space, an optional sign, then the
    longest run of decimal digits; [None] is [NaN]. White space is the
    white space and line terminators of the language: the ASCII ones, and
    U+00A0, U+1680, U+2000 to U+200A, U+2028, U+2029, U+202F, U+205F, U+3000
    and U+FEFF in their UTF-8 encodings. *)
Module ParseInt.

Definition is_space (c : ascii) : bool :=
  let n := nat_of_ascii c in
  (Nat.eqb n 9 || Nat.eqb n 10 || Nat.eqb n 11 || Nat.eqb n 12 || Nat.eqb n 13
   || Nat.eqb n 32)%bool.

(** U+00A0 *)
Definition two_byte_space (a b : ascii) : bool :=
  (Nat.eqb (nat_of_ascii a) 194 && Nat.eqb (nat_of_ascii b) 160)%bool.

Definition three_byte_space (a b c : ascii) : bool :=
  let x := nat_of_ascii a in
  let y := nat_of_ascii b in
  let z := nat_of_ascii c in
  ((Nat.eqb x 225 && Nat.eqb y 154 && Nat.eqb z 128)
   || (Nat.eqb x 226 && Nat.eqb y 128
       && ((Nat.leb 128 z && Nat.leb z 138)
           || Nat.eqb z 168 || Nat.eqb z 169 || Nat.eqb z 175))
   || (Nat.eqb x 226 && Nat.eqb y 129 && Nat.eqb z 159)
   || (Nat.eqb x 227 && Nat.eqb y 128 && Nat.eqb z 128)
   || (Nat.eqb x 239 && Nat.eqb y 187 && Nat.eqb z 191))%bool.

Fixpoint trim_start (s : string) : string :=
  match s with
  | String a rest =>
      if is_space a then trim_start rest
      else
        match rest with
        | String b rest2 =>
            if two_byte_space a b then trim_start rest2
            else
              match rest2 with
              | String c rest3 =>
                  if three_byte_space a b c then trim_start rest3 else s
              | EmptyString => s
              end
        | EmptyString => s
        end
  | EmptyString => s
  end.

Definition digit (c : ascii) : option Z :=
  let n := nat_of_ascii c in
  if (Nat.leb 48 n && Nat.leb n 57)%bool then Some (Z.of_nat (n - 48)) else None.

(** The value of the digits at the head of [s] after the digits read so
    far ([acc]; [None] when none was read). *)
Fixpoint digits (s : string) (acc : option Z) : option Z :=
  match s with
  | String c rest =>
      match digit c with
      | Some d =>
          digits rest (Some (match acc with Some a => a * 10 + d | None => d end)%Z)
      | None => acc
      end
  | EmptyString => acc
  end.

Definition parseInt (val : string) : option Z :=
  let s := trim_start val in
  let '(sign, rest) :=
    match s with
    | String "-" r => ((-1)%Z, r)
    | String "+" r => (1%Z, r)
    | _ => (1%Z, s)
    end in
  match digits rest None with
  | Some v => Some (sign * v)%Z
  | None => None
  end.

End ParseInt.

(** [listNotificationsSchema] on the query of a request whose [limit], when
    given, is a string: the parsed query, or [None] when validation fails. *)
Definition listNotificationsSchema (rawLimit : option string)
  : option ListNotificationsQuery :=
  match rawLimit with
  | None => Some {| limit := None |}
  | Some val =>
      match ParseInt.parseInt val with
      | Some n =>
          if ((1 <=? n) && (n <=? 100))%Z then Some {| limit := Some n |} else None
      | None => None
      end
  end.

(** The [refine] of [recipients] in [sendNotificationSchema]. *)
Definition recipients_refine (val : Recipients) : bool :=
  present (userIds val) || present (roles val) || present (classIds val).

Definition role_enum : list string := ["SCHOOL_ADMIN"; "TEACHER"; "PARENT"].

Definition all_of (check : string -> bool) (xs : option (list string)) : bool :=
  forallb check (listed xs).

(** Whether [sendNotificationSchema.safeParse] succeeds on a body of the
    right shape; [isUuid] is the validation library's uuid check. *)
Definition sendNotificationSchema_success (isUuid : string -> bool)
    (body : SendNotificationInput) : bool :=
  (1 <=? Unicode.length (sn_title body))%nat &&
  (Unicode.length (sn_title body) <=? 200)%nat &&
  (1 <=? Unicode.length (sn_message body))%nat &&
  (Unicode.length (sn_message body) <=? 1000)%nat &&
  all_of isUuid (userIds (sn_recipients body)) &&
  all_of (Js.array_includes role_enum) (roles (sn_recipients body)) &&
  all_of isUuid (classIds (sn_recipients body)) &&
  recipients_refine (sn_recipients body).

(** The body of a device registration before validation. *)
Record RawRegisterDevice := {
  raw_userId : string;
  raw_deviceToken : string;
  raw_platform : string
}.

Definition platform_of (s : string) : option Platform :=
  if s =? "IOS" then Some IOS
  else if s =? "ANDROID" then Some ANDROID
  else if s =? "WEB" then Some WEB
  else None.

(** [registerDeviceSchema.safeParse]: the messages of the issues, in the
    order of the fields, or the parsed body. *)
Definition registerDeviceSchema (isUuid : string -> bool) (raw : RawRegisterDevice)
  : list string + RegisterDeviceInput :=
  let issues :=
    ((if isUuid (raw_userId raw) then [] else ["Invalid user ID format"]) ++
     (if (1 <=? Unicode.length (raw_deviceToken raw))%nat then []
      else ["Device token is required"]) ++
     (match platform_of (raw_platform raw) with
      | Some _ => []
      | None => ["Platform must be IOS, ANDROID, or WEB"]
      end))%list in
  match issues, platform_of (raw_platform raw) with
  | [], Some p =>
      inr {| rd_userId := raw_userId raw;
             rd_deviceToken := raw_deviceToken raw;
             rd_platform := p |}
  | _, _ => inl issues
  end.

(** ** HTTP layer *)

(** The error classes of [utils/errors] seen by the HTTP layer: those the
    middlewares and controllers throw, and those of the service. All of
    them are taken to extend [AppError], as the middlewares' use of
    [error.statusCode] supposes. *)
Inductive HttpErrorClass : Type :=
| ValidationError
| UnauthorizedError
| ForbiddenError
| ServiceError (cls : AppErrorClass).

(** A value handed to [next], or caught by a middleware. *)
Inductive Raised : Type :=
| RaisedApp (cls : HttpErrorClass) (message : string)
| RaisedOther (f : Foreign).

Definition raised_of (t : Thrown) : Raised :=
  match t with
  | AppError cls m => RaisedApp (ServiceError cls) m
  | Other f => RaisedOther f
  end.

Record JWTPayload := {
  jwt_userId : string;
  jwt_role : string;
  jwt_email : string
}.

(** What is outside the sources read here: the validation library's uuid
    check and the text it gives to the issues of a rejected request, the
    token library's [verify] ([None] when it throws), and the status code
    each error class of [utils/errors] carries. *)
Record Library := {
  isUuid : string -> bool;
  jwt_verify : string -> string -> option JWTPayload;
  statusCodeOf : HttpErrorClass -> N;
  send_issues : SendNotificationInput -> string;
  list_issues : option string -> string
}.

Inductive Payload : Type :=
| DeviceRegistered (row : DeviceToken)
| NotificationQueued (result : EnqueueResult)
| NotificationList (items : list NotificationItem).

Record ApiResponse := {
  api_success : bool;
  api_data : option Payload;
  api_message : option string;
  api_error : option string
}.

Record Reply := {
  reply_status : N;
  reply_json : ApiResponse
}.

(** [sendSuccess(res, data, message, statusCode = 200)] *)
Definition sendSuccess (data : Payload) (message : option string)
    (statusCode : option N) : Reply :=
  {| reply_status := match statusCode with Some c => c | None => 200%N end;
     reply_json :=
       {| api_success := true;
          api_data := Some data;
          api_message := if Js.truthy_opt message then message else None;
          api_error := None |} |}.

(** The [error] argument of [sendError]: an [AppError], another [Error], or
    a string. *)
Inductive ErrorArg : Type :=
| ArgApp (cls : HttpErrorClass) (message : string)
| ArgError (message : string)
| ArgString (s : string).

(** [statusCode || 500] *)
Definition status_or_500 (statusCode : option N) : N :=
  match statusCode with
  | Some c => if (c =? 0)%N then 500%N else c
  | None => 500%N
  end.

Definition sendError (lib : Library) (error : ErrorArg) (statusCode : option N)
  : Reply :=
  let '(message, code) :=
    match error with
    | ArgApp cls m => (m, statusCodeOf lib cls)
    | ArgError m => (m, status_or_500 statusCode)
    | ArgString s => (s, status_or_500 statusCode)
    end in
  {| reply_status := code;
     reply_json :=
       {| api_success := false;
          api_data := None;
          api_message := None;
          api_error := Some message |} |}.

(** [errorHandler], the last middleware of the router. *)
Definition errorHandler (lib : Library) (err : Raised) : Reply :=
  match err with
  | RaisedApp cls m => sendError lib (ArgApp cls m) (Some (statusCodeOf lib cls))
  | RaisedOther f =>
      sendError lib
        (ArgString (match f with
                    | FError _ m _ => m
                    | _ => "Internal server error"
                    end))
        (Some 500%N)
  end.

Record Request (B : Type) := {
  req_authorization : option string;
  req_input : B;
  req_user : option JWTPayload
}.
Arguments req_authorization {B} _.
Arguments req_input {B} _.
Arguments req_user {B} _.

(** A middleware calls [next] with the request, or answers itself. *)
Inductive Step (B : Type) : Type :=
| Next (req : Request B)
| Replied (r : Reply).
Arguments Next {B} req.
Arguments Replied {B} r.

(** [verifyAccessToken] of [utils/jwt]; [secret] is
    [process.env.JWT_ACCESS_SECRET], [""] when it is not set. *)
Definition verifyAccessToken (lib : Library) (secret token : string)
  : Await JWTPayload :=
  if negb (Js.truthy secret) then
    inl (FError "Error" "JWT_ACCESS_SECRET is not defined" None)
  else
    match jwt_verify lib token secret with
    | Some payload => inr payload
    | None => inl (FError "Error" "Invalid or expired access token" None)
    end.

Definition authenticate {B : Type} (lib : Library) (secret : string)
    (req : Request B) : Step B :=
  let unauthorized message :=
    Replied (sendError lib (ArgApp UnauthorizedError message)
               (Some (statusCodeOf lib UnauthorizedError))) in
  match req_authorization req with
  | None => unauthorized "No token provided"
  | Some authHeader =>
      if negb (Js.truthy authHeader) || negb (String.prefix "Bearer " authHeader) then
        unauthorized "No token provided"
      else
        let token :=
          String.substring 7 (String.length authHeader - 7) authHeader in
        match verifyAccessToken lib secret token with
        | inr payload =>
            Next {| req_authorization := req_authorization req;
                    req_input := req_input req;
                    req_user := Some payload |}
        | inl _ => unauthorized "Invalid or expired token"
        end
  end.

Definition authorize {B : Type} (lib : Library) (allowedRoles : list string)
    (req : Request B) : Step B :=
  let forbidden message :=
    Replied (sendError lib (ArgApp ForbiddenError message)
               (Some (statusCodeOf lib ForbiddenError))) in
  match req_user req with
  | None => forbidden "User not authenticated"
  | Some user =>
      if negb (Js.array_includes allowedRoles (jwt_role user)) then
        forbidden ("Access denied. Required roles: "
                   ++ String.concat ", " allowedRoles)
      else Next req
  end.

(** A controller answers, or hands an error to [next]. *)
Inductive Handled : Type :=
| Responded (r : Reply)
| PassedOn (err : Raised).

Definition registerDeviceController (lib : Library)
    (lastUsedAt_default : Z -> option Z) (prisma : Prisma) (now : Z)
    (req : Request RawRegisterDevice) : Handled * Prisma :=
  match registerDeviceSchema (isUuid lib) (req_input req) with
  | inl issues => (PassedOn (RaisedApp ValidationError (String.concat ", " issues)), prisma)
  | inr body =>
      match req_user req with
      | None => (PassedOn (RaisedApp ValidationError "User not authenticated"), prisma)
      | Some user =>
          match registerDevice lastUsedAt_default prisma now body (jwt_userId user) with
          | (Return result, prisma') =>
              (Responded (sendSuccess (DeviceRegistered result)
                            (Some "Device registered successfully") (Some 201%N)),
               prisma')
          | (Throw t, prisma') => (PassedOn (raised_of t), prisma')
          end
      end
  end.

Definition sendNotificationController (lib : Library) (prisma : Prisma)
    (notificationQueue : Queue) (req : Request SendNotificationInput) : Handled :=
  if negb (sendNotificationSchema_success (isUuid lib) (req_input req)) then
    PassedOn (RaisedApp ValidationError
                ("Validation failed: " ++ send_issues lib (req_input req)))
  else
    match req_user req with
    | None => PassedOn (RaisedApp ValidationError "User not authenticated")
    | Some user =>
        match enqueueNotification prisma notificationQueue (req_input req)
                (jwt_userId user) with
        | Return result =>
            Responded (sendSuccess (NotificationQueued result)
                         (Some "Notification queued") (Some 202%N))
        | Throw t => PassedOn (raised_of t)
        end
    end.

Definition listNotificationsController (lib : Library)
    (notificationQueue : Queue) (req : Request (option string)) : Handled :=
  match listNotificationsSchema (req_input req) with
  | None => PassedOn (RaisedApp ValidationError (list_issues lib (req_input req)))
  | Some query =>
      match req_user req with
      | None => PassedOn (RaisedApp ValidationError "User not authenticated")
      | Some user =>
          match listNotifications notificationQueue (jwt_role user)
                  (jwt_userId user) query with
          | Return result =>
              Responded (sendSuccess (NotificationList result)
                           (Some "Notifications retrieved") (Some 200%N))
          | Throw t => PassedOn (raised_of t)
          end
      end
  end.

(** The values the framework takes for no error when they are passed to
    [next]: the falsy ones, and the strings ['route'] and ['router'], which
    only leave the route or the router. *)
Definition passes_for_no_error (err : Raised) : bool :=
  match err with
  | RaisedOther FUndefined | RaisedOther FNull => true
  | RaisedOther (FString s) => (s =? "") || (s =? "route") || (s =? "router")
  | _ => false
  end.

(** The application's handler after all routers: the 404 answer. *)
Definition notFoundHandler : Reply :=
  {| reply_status := 404%N;
     reply_json :=
       {| api_success := false;
          api_data := None;
          api_message := None;
          api_error := Some "Route not found" |} |}.

(** What answers after a controller: its own reply; for an error handed to
    [next], the router's [errorHandler]; and when the value handed to
    [next] passes for no error, no other route of the application matches
    and its 404 handler answers. *)
Definition finish (lib : Library) (h : Handled) : Reply :=
  match h with
  | Responded r => r
  | PassedOn err =>
      if passes_for_no_error err then notFoundHandler else errorHandler lib err
  end.

(** The three routes of the notification router, each with its chain of
    middlewares, and [errorHandler] at the end. *)
Definition route_device (lib : Library) (secret : string)
    (lastUsedAt_default : Z -> option Z) (prisma : Prisma) (now : Z)
    (req : Request RawRegisterDevice) : Reply * Prisma :=
  match authenticate lib secret req with
  | Replied r => (r, prisma)
  | Next req1 =>
      let '(h, prisma') :=
        registerDeviceController lib lastUsedAt_default prisma now req1 in
      (finish lib h, prisma')
  end.

Definition route_send (lib : Library) (secret : string) (prisma : Prisma)
    (notificationQueue : Queue) (req : Request SendNotificationInput) : Reply :=
  match authenticate lib secret req with
  | Replied r => r
  | Next req1 =>
      match authorize lib ["SCHOOL_ADMIN"] req1 with
      | Replied r => r
      | Next req2 =>
          finish lib (sendNotificationController lib prisma notificationQueue req2)
      end
  end.

Definition route_list (lib : Library) (secret : string)
    (notificationQueue : Queue) (req : Request (option string)) : Reply :=
  match authenticate lib secret req with
  | Replied r => r
  | Next req1 => finish lib (listNotificationsController lib notificationQueue req1)
  end.

(** ** Attendance: the checks shared by marking and editing *)

Module Attendance.

Inductive Status : Type := PRESENT | ABSENT | LATE | EXCUSED.

Record AttendanceRecord := {
  ar_studentId : string;
  ar_status : Status;
  ar_remarks : option string
}.

(** The columns of a student row that the attendance service reads. *)
Record StudentRow := {
  sr_id : string;
  sr_classId : string;
  sr_schoolId : string
}.

(** The student table as the client sees it: the error every query rejects
    with while the database is unreachable, and the rows. *)
Record Students := {
  st_fault : option Foreign;
  st_rows : list StudentRow
}.

(** [validateStudentsInClass]: returns, or throws a validation error (or
    what the database rejected with). *)
Definition validateStudentsInClass (db : Students) (studentIds : list string)
    (classId schoolId : string) : Raised + unit :=
  match st_fault db with
  | Some e => inl (RaisedOther e)
  | None =>
      let students :=
        filter (fun s => Js.array_includes studentIds (sr_id s)
                         && (sr_classId s =? classId)
                         && (sr_schoolId s =? schoolId))
               (st_rows db) in
      if negb (List.length students =? List.length studentIds)%nat then
        let foundStudentIds := map sr_id students in
        let missingStudents :=
          filter (fun id => negb (Js.array_includes foundStudentIds id)) studentIds in
        inl (RaisedApp ValidationError
               ("Students not found in class: " ++ String.concat ", " missingStudents))
      else inr tt
  end.

(** The totals stored with an attendance by [markAttendance] and
    [editAttendance]. *)
Definition counts_present (r : AttendanceRecord) : bool :=
  match ar_status r with
  | PRESENT | LATE | EXCUSED => true
  | ABSENT => false
  end.

Definition counts_absent (r : AttendanceRecord) : bool :=
  match ar_status r with
  | ABSENT => true
  | _ => false
  end.

Definition totalPresent (attendanceRecords : list AttendanceRecord) : nat :=
  List.length (filter counts_present attendanceRecords).

Definition totalAbsent (attendanceRecords : list AttendanceRecord) : nat :=
  List.length (filter counts_absent attendanceRecords).

(** A student of the class [classId] of the school [schoolId]. *)
Definition enrolled (db : Students) (classId schoolId id : string) : Prop :=
  exists s, In s (st_rows db) /\ sr_id s = id /\
            sr_classId s = classId /\ sr_schoolId s = schoolId.

End Attendance.

(** ** Vocabulary of the further statements *)

(** A rejection with [null] or [undefined], values without properties. *)
Definition rejects_without_properties {A : Type} (a : Await A) : bool :=
  match a with
  | inl FNull | inl FUndefined => true
  | _ => false
  end.

(** What the worker records for the OneSignal attempt, or the error thrown
    while recording it. *)
Definition onesignal_outcome (os : Await ProviderResult) : Foreign + ProviderResult :=
  match os with
  | inr osResult => inr osResult
  | inl err =>
      match caught_message err with
      | inr message =>
          inr {| provider := "onesignal"; success := false; reason := message |}
      | inl thrown => inl thrown
      end
  end.

(** The provider an event of the worker names. *)
Definition event_provider (e : Event) : string :=
  match e with
  | Entered name _ => name
  | Requested name _ => name
  end.

(** The tokens an event of the worker carries. *)
Definition event_tokens (e : Event) : list string :=
  match e with
  | Entered _ tokens => tokens
  | Requested _ tokens => tokens
  end.

Definition is_request (e : Event) : bool :=
  match e with
  | Requested _ _ => true
  | Entered _ _ => false
  end.

(** The filter restricted to one of its categories. *)
Definition only_userIds (r : Recipients) : Recipients :=
  {| userIds := userIds r; roles := None; classIds := None |}.

Definition only_the_roles (r : Recipients) : Recipients :=
  {| userIds := None; roles := roles r; classIds := None |}.

Definition only_classIds (r : Recipients) : Recipients :=
  {| userIds := None; roles := None; classIds := classIds r |}.

Definition with_recipients (payload : SendNotificationInput) (r : Recipients)
  : SendNotificationInput :=
  {| sn_title := sn_title payload;
     sn_message := sn_message payload;
     sn_recipients := r;
     sn_data := sn_data payload |}.

(** Two databases that differ at most in the activity flags of their users
    and students. *)
Definition same_user_but_activity (u v : User) : Prop :=
  user_id u = user_id v /\ user_role u = user_role v.

Definition same_student_but_activity (s t : Student) : Prop :=
  student_classId s = student_classId t /\ student_parent s = student_parent t.

Definition same_but_activity (db db' : Database) : Prop :=
  Forall2 same_user_but_activity (users db) (users db') /\
  teacherClasses db = teacherClasses db' /\
  Forall2 same_student_but_activity (students db) (students db').

(** The rows the lookup of [validateStudentsInClass] answers. *)
Definition students_found (db : Attendance.Students) (studentIds : list string)
    (classId schoolId : string) : list Attendance.StudentRow :=
  filter (fun s => Js.array_includes studentIds (Attendance.sr_id s)
                   && (Attendance.sr_classId s =? classId)
                   && (Attendance.sr_schoolId s =? schoolId))
         (Attendance.st_rows db).

Definition status_eq_dec (a b : Attendance.Status) : {a = b} + {a <> b}.
Proof. decide equality. Defined.

(** A summary that carries the fields of a job. *)
Definition summarises (item : NotificationItem) (job : Job) : Prop :=
  it_id item = job_id job /\
  it_title item = jd_title (job_data job) /\
  it_message item = jd_message (job_data job) /\
  it_recipientUserIds item = jd_recipientUserIds (job_data job) /\
  it_initiatedBy item = jd_initiatedBy (job_data job) /\
  it_timestamp item = job_timestamp job /\
  it_finishedOn item = job_finishedOn job.

(** The jobs addressed to a user. *)
Definition addressed_to (userId : string) (jobs : list Job) : list Job :=
  filter (fun job => Js.array_includes (jd_recipientUserIds (job_data job)) userId)
         jobs.

(** A summary of a job whose state is read off the job's finish time and
    off nothing else, and which shows the job's failure reason. *)
Definition state_read_off_finish_time (item : NotificationItem) (job : Job) : Prop :=
  it_id item = job_id job /\
  it_state item
  = (if Js.truthy_num (job_finishedOn job) then "completed" else "failed") /\
  (forall t, job_finishedOn job = Some t -> t <> 0%Z -> it_state item = "completed") /\
  (job_finishedOn job = None -> it_state item = "failed") /\
  (forall why, job_failedReason job = Some why -> why <> "" ->
               it_failedReason item = Some why).

(** A reply that reports an error: no data, and a message under [error]. *)
Definition error_reply (r : Reply) : Prop :=
  api_success (reply_json r) = false /\
  api_data (reply_json r) = None /\
  exists message, api_error (reply_json r) = Some message.

(** The reply of a route that succeeded. *)
Definition success_reply (status : N) (message : string) (data : Payload) : Reply :=
  {| reply_status := status;
     reply_json := {| api_success := true;
                      api_data := Some data;
                      api_message := Some message;
                      api_error := None |} |}.

(** A request carrying the bearer token [token]. *)
Definition bearing {B : Type} (token : string) (input : B) : Request B :=
  {| req_authorization := Some ("Bearer " ++ token);
     req_input := input;
     req_user := None |}.

(** A string of decimal digits, and a string that does not go on with one. *)
Fixpoint all_digits (s : string) : bool :=
  match s with
  | String c rest =>
      match ParseInt.digit c with
      | Some _ => all_digits rest
      | None => false
      end
  | EmptyString => true
  end.

Definition no_digit_ahead (s : string) : bool :=
  match s with
  | String c _ =>
      match ParseInt.digit c with
      | Some _ => false
      | None => true
      end
  | EmptyString => true
  end.

(** Further concrete data. *)
Module Sample.

Definition admin : JWTPayload :=
  {| jwt_userId := "admin"; jwt_role := "SCHOOL_ADMIN"; jwt_email := "admin@school" |}.

Definition parent : JWTPayload :=
  {| jwt_userId := "g1"; jwt_role := "PARENT"; jwt_email := "g1@home" |}.

(** A library where every id is taken for a uuid, the tokens ["A"] and
    ["P"] verify, and the error classes carry the usual status codes. *)
Definition lib : Library :=
  {| isUuid := fun _ => true;
     jwt_verify := fun token _ =>
       if token =? "A" then Some admin
       else if token =? "P" then Some parent
       else None;
     statusCodeOf := fun cls =>
       match cls with
       | ValidationError => 400%N
       | UnauthorizedError => 401%N
       | ForbiddenError => 403%N
       | ServiceError ConflictError => 409%N
       | ServiceError NotFoundError => 404%N
       end;
     send_issues := fun _ => "invalid";
     list_issues := fun _ => "invalid" |}.

Definition asAdmin {B : Type} (input : B) : Request B :=
  {| req_authorization := Some "Bearer A"; req_input := input; req_user := None |}.

Definition asParent {B : Type} (input : B) : Request B :=
  {| req_authorization := Some "Bearer P"; req_input := input; req_user := None |}.

Definition anonymous {B : Type} (input : B) : Request B :=
  {| req_authorization := None; req_input := input; req_user := None |}.

Definition someoneElse : RawRegisterDevice :=
  {| raw_userId := "g2"; raw_deviceToken := "tok-x"; raw_platform := "IOS" |}.

Definition ownPhone : RawRegisterDevice :=
  {| raw_userId := "g1"; raw_deviceToken := "tok-new"; raw_platform := "ANDROID" |}.

Definition emptyFilter : SendNotificationInput :=
  {| sn_title := "Meeting";
     sn_message := "Tomorrow 5pm";
     sn_recipients := {| userIds := Some []; roles := None; classIds := None |};
     sn_data := None |}.

Definition unreachable : Prisma :=
  {| fault := Some (FError "PrismaClientInitializationError"
                      "Can't reach database server" None);
     tables := Fixture.school |}.

Definition unconfigured : Env :=
  {| oneSignalAppId := ""; oneSignalRestApiKey := "";
     fcmServerKey := ""; fcmProjectId := "" |}.

Definition fcmRejecting : Gateways :=
  {| createNotification := fun _ _ => inr tt;
     fetch := fun _ =>
       inr {| res_ok := false; res_status := 503%N; res_text := "unavailable" |} |}.

(** The OneSignal client rejects with [null]; FCM delivers. *)
Definition oneSignalNull : Gateways :=
  {| createNotification := fun _ _ => inl FNull;
     fetch := fun _ => inr {| res_ok := true; res_status := 200%N; res_text := "" |} |}.

Definition classroom : Attendance.Students :=
  {| Attendance.st_fault := None;
     Attendance.st_rows :=
       [ {| Attendance.sr_id := "s1"; Attendance.sr_classId := "class-9A";
            Attendance.sr_schoolId := "school-1" |};
         {| Attendance.sr_id := "s2"; Attendance.sr_classId := "class-9A";
            Attendance.sr_schoolId := "school-1" |};
         {| Attendance.sr_id := "s3"; Attendance.sr_classId := "class-9B";
            Attendance.sr_schoolId := "school-1" |} ] |}.

(** The school with the deactivated parent active again and one student
    withdrawn. *)
Definition schoolOtherFlags : Database :=
  {| users := map (fun u => {| user_id := user_id u; user_role := user_role u;
                               user_isActive := true |})
                  (users Fixture.school);
     teacherClasses := teacherClasses Fixture.school;
     students := map (fun s => {| student_classId := student_classId s;
                                  student_parent := student_parent s;
                                  student_isActive := false |})
                     (students Fixture.school);
     deviceTokens := deviceTokens Fixture.school |}.

End Sample.

(** * Properties *)

(** ** Sets of strings *)

Lemma array_includes_In (xs : list string) (x : string) :
  Js.array_includes xs x = true <-> In x xs.
Proof.
  unfold Js.array_includes. rewrite existsb_exists. split.
  - intros [y [Hy Heq]]. apply String.eqb_eq in Heq. now subst.
  - intros H. exists x. split; [assumption | apply String.eqb_refl].
Qed.

Lemma set_add_In (s : Js.StringSet) (x y : string) :
  In y (Js.set_add s x) <-> In y s \/ y = x.
Proof.
  unfold Js.set_add. destruct (Js.array_includes s x) eqn:E.
  - apply array_includes_In in E. split; [tauto | intros [H | ->]; assumption].
  - rewrite in_app_iff. simpl. intuition congruence.
Qed.

Lemma set_add_NoDup (s : Js.StringSet) (x : string) :
  NoDup s -> NoDup (Js.set_add s x).
Proof.
  intros Hs. unfold Js.set_add. destruct (Js.array_includes s x) eqn:E; [assumption |].
  assert (Hx : ~ In x s).
  { intros Hin. apply array_includes_In in Hin. congruence. }
  clear E. induction Hs as [| a l Ha Hl IH]; simpl.
  - constructor; [intros [] | constructor].
  - constructor.
    + rewrite in_app_iff. simpl. intros [H | [H | []]]; [tauto |].
      subst a. apply Hx. left. reflexivity.
    + apply IH. intros H. apply Hx. right. assumption.
Qed.

Lemma set_add_all_In (xs : list string) : forall (s : Js.StringSet) (y : string),
  In y (Js.set_add_all s xs) <-> In y s \/ In y xs.
Proof.
  unfold Js.set_add_all.
  induction xs as [| x xs IH]; intros s y; simpl.
  - tauto.
  - rewrite IH, set_add_In. intuition congruence.
Qed.

Lemma set_add_all_NoDup (xs : list string) : forall s : Js.StringSet,
  NoDup s -> NoDup (Js.set_add_all s xs).
Proof.
  unfold Js.set_add_all.
  induction xs as [| x xs IH]; intros s Hs; simpl; [assumption |].
  apply IH, set_add_NoDup, Hs.
Qed.

(** The loop over the students' parents adds the guardians' ids. *)
Lemma add_guardians (sts : list Student) : forall s : Js.StringSet,
  fold_left (fun acc p => match student_parent p with
                          | Some par => Js.set_add acc (parent_userId par)
                          | None => acc
                          end) sts s
  = Js.set_add_all s (guardian_ids sts).
Proof.
  induction sts as [| st sts IH]; intros s; simpl; [reflexivity |].
  rewrite IH. destruct (student_parent st); reflexivity.
Qed.

(** ** Recipient resolver *)

Lemma filter_not_present {Row : Type} (xs : option (list string))
    (f : Row -> string) (rows : list Row) :
  present xs = false ->
  filter (fun row => Js.array_includes (listed xs) (f row)) rows = [].
Proof.
  intros H. assert (E : listed xs = []).
  { destruct xs as [[| a l] |]; simpl in *; congruence. }
  rewrite E. induction rows as [| row rows IH]; simpl; [reflexivity | exact IH].
Qed.

(** With the database reachable the resolver returns the set built from
    the four lookups, in this order. *)
Lemma resolve_connected (db : Database) (payload : SendNotificationInput) :
  resolveRecipientUserIds (connected db) payload =
  inr (Js.set_add_all
         (Js.set_add_all
            (Js.set_add_all
               (Js.set_add_all [] (ids_by_userIds db (sn_recipients payload)))
               (ids_by_roles db (sn_recipients payload)))
            (ids_by_class_teachers db (sn_recipients payload)))
         (ids_by_class_guardians db (sn_recipients payload))).
Proof.
  unfold resolveRecipientUserIds, findMany, connected. cbv zeta. cbn [fault tables].
  unfold ids_by_userIds, ids_by_roles, ids_by_class_teachers, ids_by_class_guardians.
  generalize (sn_recipients payload). intros r.
  destruct (present (userIds r)) eqn:E1, (present (roles r)) eqn:E2,
           (present (classIds r)) eqn:E3;
    cbn [bind]; rewrite ?add_guardians;
    rewrite ?(filter_not_present _ _ _ E1), ?(filter_not_present _ _ _ E2),
            ?(filter_not_present _ _ _ E3);
    reflexivity.
Qed.

Lemma ids_by_userIds_In (db : Database) (r : Recipients) (u : string) :
  In u (ids_by_userIds db r) <-> listed_user db r u.
Proof.
  unfold ids_by_userIds, listed_user. rewrite in_map_iff. split.
  - intros [usr [Hid Hin]]. apply filter_In in Hin as [Hin Hsel].
    apply array_includes_In in Hsel. exists usr. subst u. auto.
  - intros [usr [Hin [Hid Hl]]]. exists usr. split; [assumption |].
    apply filter_In. split; [assumption |].
    apply array_includes_In. now rewrite Hid.
Qed.

Lemma ids_by_roles_In (db : Database) (r : Recipients) (u : string) :
  In u (ids_by_roles db r) <-> holds_listed_role db r u.
Proof.
  unfold ids_by_roles, holds_listed_role. rewrite in_map_iff. split.
  - intros [usr [Hid Hin]]. apply filter_In in Hin as [Hin Hsel].
    apply array_includes_In in Hsel. exists usr. auto.
  - intros [usr [Hin [Hid Hl]]]. exists usr. split; [assumption |].
    apply filter_In. split; [assumption |]. now apply array_includes_In.
Qed.

Lemma ids_by_class_teachers_In (db : Database) (r : Recipients) (u : string) :
  In u (ids_by_class_teachers db r) <-> teaches_listed_class db r u.
Proof.
  unfold ids_by_class_teachers, teaches_listed_class. rewrite in_map_iff. split.
  - intros [t [Hid Hin]]. apply filter_In in Hin as [Hin Hsel].
    apply array_includes_In in Hsel. exists t. auto.
  - intros [t [Hin [Hid Hl]]]. exists t. split; [assumption |].
    apply filter_In. split; [assumption |]. now apply array_includes_In.
Qed.

Lemma guardian_ids_In (sts : list Student) (u : string) :
  In u (guardian_ids sts) <->
  exists st par, In st sts /\ student_parent st = Some par /\ parent_userId par = u.
Proof.
  unfold guardian_ids. rewrite in_flat_map. split.
  - intros [st [Hin Hu]]. destruct (student_parent st) as [par |] eqn:E.
    + destruct Hu as [Hu | []]. exists st, par. auto.
    + destruct Hu.
  - intros [st [par [Hin [Hp Hu]]]]. exists st. split; [assumption |].
    rewrite Hp. left. assumption.
Qed.

Lemma ids_by_class_guardians_In (db : Database) (r : Recipients) (u : string) :
  In u (ids_by_class_guardians db r) <-> guardian_in_listed_class db r u.
Proof.
  unfold ids_by_class_guardians, guardian_in_listed_class.
  rewrite guardian_ids_In. split.
  - intros [st [par [Hin [Hp Hu]]]]. apply filter_In in Hin as [Hin Hsel].
    apply array_includes_In in Hsel. exists st, par. auto.
  - intros [st [par [Hin [Hp [Hu Hc]]]]]. exists st, par.
    split; [| auto]. apply filter_In. split; [assumption |].
    now apply array_includes_In.
Qed.

(** What the resolver returns on a reachable database: a duplicate-free
    list holding exactly the ids reached by one of the four lookups. *)
Lemma resolve_spec (db : Database) (payload : SendNotificationInput) :
  exists ids,
    resolveRecipientUserIds (connected db) payload = inr ids /\
    NoDup ids /\
    forall u, In u ids <-> reachable db (sn_recipients payload) u.
Proof.
  eexists. split; [apply resolve_connected |]. split.
  - repeat apply set_add_all_NoDup. constructor.
  - intros u. rewrite !set_add_all_In.
    rewrite ids_by_userIds_In, ids_by_roles_In, ids_by_class_teachers_In,
            ids_by_class_guardians_In.
    unfold reachable. simpl. tauto.
Qed.

(** C4: for every recipient filter the resolver's result is deduplicated: it
    has no repeated id, and a user reached by any of the filter paths (and
    so also one reached by two or more of them) occurs in it exactly once. *)
Theorem resolver_deduplicates (db : Database) (payload : SendNotificationInput) :
  exists ids,
    resolveRecipientUserIds (connected db) payload = inr ids /\
    NoDup ids /\
    forall u, reachable db (sn_recipients payload) u ->
              count_occ string_dec ids u = 1%nat.
Proof.
  destruct (resolve_spec db payload) as [ids [Hres [Hnd Hin]]].
  exists ids. split; [assumption |]. split; [assumption |].
  intros u Hu. apply NoDup_count_occ'; [assumption |]. now apply Hin.
Qed.

(** The class of the design's example: two teachers and three students of
    whom two share a guardian resolve to four ids, and the shared guardian,
    who is also reached through the role PARENT, occurs once. *)
Lemma resolver_deduplicates_witness :
  exists ids,
    resolveRecipientUserIds (connected Fixture.school) Fixture.toParentsAndClass
      = inr ids /\
    NoDup ids /\
    List.length ids = 4%nat /\
    count_occ string_dec ids "g1" = 1%nat.
Proof.
  destruct (resolver_deduplicates Fixture.school Fixture.toParentsAndClass)
    as [ids [Hres [Hnd Hocc]]].
  exists ids. split; [exact Hres |]. split; [exact Hnd |]. split.
  - vm_compute in Hres. injection Hres as <-. reflexivity.
  - apply Hocc. right. left.
    exists {| user_id := "g1"; user_role := Fixture.parentRole; user_isActive := true |}.
    simpl. auto.
Defined.

(** C3, as the code has it: for a filter listing only role names the
    resolver returns exactly the users holding one of the listed roles,
    whether active or not, each once. *)
Theorem resolver_roles_only (db : Database) (payload : SendNotificationInput) :
  only_roles (sn_recipients payload) ->
  exists ids,
    resolveRecipientUserIds (connected db) payload = inr ids /\
    NoDup ids /\
    forall u, In u ids <-> holds_listed_role db (sn_recipients payload) u.
Proof.
  intros [Hu Hc].
  destruct (resolve_spec db payload) as [ids [Hres [Hnd Hin]]].
  exists ids. split; [assumption |]. split; [assumption |].
  intros u. rewrite Hin. unfold reachable. split; [| tauto].
  intros [H | [H | [H | H]]]; [| assumption | |].
  - destruct H as [usr [_ [_ H]]]. rewrite Hu in H. destruct H.
  - destruct H as [t [_ [_ H]]]. rewrite Hc in H. destruct H.
  - destruct H as [st [par [_ [_ [_ H]]]]]. rewrite Hc in H. destruct H.
Qed.

Lemma resolver_roles_only_witness :
  only_roles (sn_recipients Fixture.toParents) /\
  exists ids,
    resolveRecipientUserIds (connected Fixture.school) Fixture.toParents = inr ids /\
    NoDup ids /\
    forall u, In u ids <-> holds_listed_role Fixture.school
                             (sn_recipients Fixture.toParents) u.
Proof.
  assert (H : only_roles (sn_recipients Fixture.toParents)).
  { split; reflexivity. }
  split; [exact H |].
  exact (resolver_roles_only Fixture.school Fixture.toParents H).
Defined.

(** C3 as stated fails: with the filter [{roles: ["PARENT"]}] the resolver
    returns the deactivated parent g2 along with the active parent g1. *)
Lemma resolver_returns_inactive_user :
  resolveRecipientUserIds (connected Fixture.school) Fixture.toParents
    = inr ["g1"; "g2"] /\
  active_role_holders Fixture.school ["PARENT"] = ["g1"] /\
  In {| user_id := "g2"; user_role := Fixture.parentRole; user_isActive := false |}
     (users Fixture.school).
Proof.
  split; [reflexivity |]. split; [reflexivity |]. simpl. tauto.
Qed.

(** ** Device token store *)

Lemma same_key_iff (userId token : string) (row : DeviceToken) :
  same_key userId token row = true <-> key_of row = (userId, token).
Proof.
  unfold same_key, key_of. rewrite andb_true_iff, !String.eqb_eq.
  split; [intros [-> ->]; reflexivity | intros H; injection H; auto].
Qed.

Lemma rows_with_key_absent (userId token : string) (rows : list DeviceToken) :
  ~ In (userId, token) (map key_of rows) -> rows_with_key userId token rows = [].
Proof.
  unfold rows_with_key. induction rows as [| r rows IH]; simpl; [reflexivity |].
  intros H. destruct (same_key userId token r) eqn:E.
  - apply same_key_iff in E. tauto.
  - apply IH. tauto.
Qed.

Lemma find_none_absent (userId token : string) (rows : list DeviceToken) :
  find (same_key userId token) rows = None ->
  ~ In (userId, token) (map key_of rows).
Proof.
  intros Hfind Hin. apply in_map_iff in Hin as [r [Hk Hr]].
  apply same_key_iff in Hk.
  pose proof (find_none _ _ Hfind _ Hr) as Hn. congruence.
Qed.

Section UpdateFirst.

Variables (userId token : string) (upd : DeviceToken -> DeviceToken).
Hypothesis upd_key : forall r, key_of (upd r) = key_of r.

Lemma update_first_keys (rows : list DeviceToken) :
  map key_of (update_first (same_key userId token) upd rows) = map key_of rows.
Proof.
  induction rows as [| r rows IH]; simpl; [reflexivity |].
  destruct (same_key userId token r); simpl; [rewrite upd_key | rewrite IH];
    reflexivity.
Qed.

Lemma update_first_selected (rows : list DeviceToken) (old : DeviceToken) :
  unique_keys rows ->
  find (same_key userId token) rows = Some old ->
  rows_with_key userId token (update_first (same_key userId token) upd rows)
  = [upd old].
Proof.
  unfold unique_keys, rows_with_key.
  induction rows as [| r rows IH]; simpl; [discriminate |].
  intros Hnd Hfind. inversion Hnd as [| k ks Hnotin Hnd']; subst.
  destruct (same_key userId token r) eqn:E.
  - injection Hfind as ->. simpl.
    assert (E' : same_key userId token (upd old) = true).
    { apply same_key_iff. rewrite upd_key. now apply same_key_iff. }
    rewrite E'. f_equal. apply rows_with_key_absent.
    apply same_key_iff in E. now rewrite <- E.
  - simpl. rewrite E. now apply IH.
Qed.

End UpdateFirst.

Lemma insert_unique (rows : list DeviceToken) (row : DeviceToken) :
  unique_keys rows -> ~ In (key_of row) (map key_of rows) ->
  unique_keys (rows ++ [row]).
Proof.
  unfold unique_keys. intros Hnd Hnew. rewrite map_app. simpl.
  induction rows as [| r rows IH]; simpl in *.
  - constructor; [intros [] | constructor].
  - inversion Hnd as [| k ks Hnotin Hnd']; subst. constructor.
    + rewrite in_app_iff. simpl. intros [H | [H | []]]; [tauto |].
      apply Hnew. left. now symmetry.
    + apply IH; [assumption | tauto].
Qed.

Lemma insert_selected (userId token : string) (rows : list DeviceToken)
    (row : DeviceToken) :
  key_of row = (userId, token) ->
  ~ In (userId, token) (map key_of rows) ->
  rows_with_key userId token (rows ++ [row]) = [row].
Proof.
  intros Hk Habs. unfold rows_with_key. rewrite filter_app.
  fold (rows_with_key userId token rows). rewrite rows_with_key_absent by assumption.
  simpl. apply same_key_iff in Hk. now rewrite Hk.
Qed.

(** One successful upsert on a table that respects the unique index: the
    table still respects it, holds exactly one row under the key, and that
    row is the one returned: the updated old row, or the created one. *)
Lemma upsert_connected (p : Prisma) (userId token : string)
    (upd : DeviceToken -> DeviceToken) (create : DeviceToken) :
  fault p = None ->
  unique_keys (deviceTokens (tables p)) ->
  (forall r, key_of (upd r) = key_of r) ->
  key_of create = (userId, token) ->
  exists row p',
    upsert p userId token upd create = (inr row, p') /\
    fault p' = None /\
    unique_keys (deviceTokens (tables p')) /\
    rows_with_key userId token (deviceTokens (tables p')) = [row] /\
    match find (same_key userId token) (deviceTokens (tables p)) with
    | Some old => row = upd old /\
                  List.length (deviceTokens (tables p'))
                  = List.length (deviceTokens (tables p))
    | None => row = create /\
              deviceTokens (tables p') = (deviceTokens (tables p) ++ [create])%list
    end.
Proof.
  intros Hf Hu Hupd Hc. unfold upsert. rewrite Hf.
  destruct (find (same_key userId token) (deviceTokens (tables p))) as [old |] eqn:E.
  - eexists _, _. split; [reflexivity |]. simpl.
    split; [assumption |]. split.
    + unfold unique_keys. now rewrite update_first_keys.
    + split; [now apply update_first_selected |]. split; [reflexivity |].
      rewrite <- (length_map key_of), update_first_keys by assumption.
      apply length_map.
  - apply find_none_absent in E.
    eexists _, _. split; [reflexivity |]. simpl.
    split; [assumption |]. split.
    + apply insert_unique; [assumption | now rewrite Hc].
    + split; [now apply insert_selected |]. split; reflexivity.
Qed.

Lemma find_filter_head {A : Type} (f : A -> bool) (l : list A) :
  find f l = hd_error (filter f l).
Proof.
  induction l as [| a l IH]; simpl; [reflexivity |].
  destruct (f a); [reflexivity | exact IH].
Qed.

(** C6: a registration whose [userId] is not the requester's fails with a
    conflict error and leaves the database client, and so every stored
    device-token row, as it was. *)
Theorem registerDevice_foreign_user_conflict (lastUsedAt_default : Z -> option Z)
    (prisma : Prisma) (now : Z) (input : RegisterDeviceInput) (requester : string) :
  rd_userId input <> requester ->
  registerDevice lastUsedAt_default prisma now input requester
  = (Throw (AppError ConflictError "User ID does not match authenticated user"),
     prisma).
Proof.
  intros Hneq. unfold registerDevice.
  apply String.eqb_neq in Hneq. rewrite Hneq. reflexivity.
Qed.

(** C7: two registrations of the same (userId, token) by its owner, the
    second at a later time: both succeed, afterwards the table holds exactly
    one row under the key and the second call added none; that row carries
    the platform of the second call, is active and is stamped with the time
    of the second call, later than the stamp the first call left. When the
    pair was not stored before, the first call appends a new active row. *)
Theorem registerDevice_upsert (lastUsedAt_default : Z -> option Z) (db : Database)
    (requester : string) (first second : RegisterDeviceInput) (t1 t2 : Z) :
  unique_keys (deviceTokens db) ->
  rd_userId first = requester ->
  rd_userId second = requester ->
  rd_deviceToken second = rd_deviceToken first ->
  (forall t v, lastUsedAt_default t = Some v -> (v <= t)%Z) ->
  (t1 < t2)%Z ->
  exists row1 p1 row2 p2,
    registerDevice lastUsedAt_default (connected db) t1 first requester
      = (Return row1, p1) /\
    registerDevice lastUsedAt_default p1 t2 second requester = (Return row2, p2) /\
    rows_with_key requester (rd_deviceToken first) (deviceTokens (tables p2)) = [row2] /\
    List.length (deviceTokens (tables p2)) = List.length (deviceTokens (tables p1)) /\
    row2 = {| dt_userId := requester;
              dt_token := rd_deviceToken first;
              dt_platform := rd_platform second;
              dt_isActive := true;
              dt_lastUsedAt := Some t2 |} /\
    advances_to (dt_lastUsedAt row1) t2 /\
    (rows_with_key requester (rd_deviceToken first) (deviceTokens db) = [] ->
     row1 = {| dt_userId := requester;
               dt_token := rd_deviceToken first;
               dt_platform := rd_platform first;
               dt_isActive := true;
               dt_lastUsedAt := lastUsedAt_default t1 |} /\
     deviceTokens (tables p1) = (deviceTokens db ++ [row1])%list).
Proof.
  intros Huniq Hu1 Hu2 Htok Hdflt Hlt.
  set (tok := rd_deviceToken first).
  set (upd1 := fun row =>
         {| dt_userId := dt_userId row; dt_token := dt_token row;
            dt_platform := rd_platform first; dt_isActive := true;
            dt_lastUsedAt := Some t1 |}).
  set (new1 := {| dt_userId := requester; dt_token := tok;
                  dt_platform := rd_platform first; dt_isActive := true;
                  dt_lastUsedAt := lastUsedAt_default t1 |}).
  set (upd2 := fun row =>
         {| dt_userId := dt_userId row; dt_token := dt_token row;
            dt_platform := rd_platform second; dt_isActive := true;
            dt_lastUsedAt := Some t2 |}).
  set (new2 := {| dt_userId := requester; dt_token := tok;
                  dt_platform := rd_platform second; dt_isActive := true;
                  dt_lastUsedAt := lastUsedAt_default t2 |}).
  destruct (upsert_connected (connected db) requester tok upd1 new1)
    as [row1 [p1 [Hup1 [Hf1 [Huniq1 [Hsel1 Hcase1]]]]]];
    [reflexivity | exact Huniq | reflexivity | reflexivity |].
  destruct (upsert_connected p1 requester tok upd2 new2)
    as [row2 [p2 [Hup2 [Hf2 [Huniq2 [Hsel2 Hcase2]]]]]];
    [exact Hf1 | exact Huniq1 | reflexivity | reflexivity |].
  rewrite find_filter_head in Hcase2.
  change (filter (same_key requester tok) (deviceTokens (tables p1)))
    with (rows_with_key requester tok (deviceTokens (tables p1))) in Hcase2.
  rewrite Hsel1 in Hcase2. simpl in Hcase2. destruct Hcase2 as [Hrow2 Hlen2].
  assert (Hkey1 : key_of row1 = (requester, tok)).
  { apply same_key_iff.
    assert (Hin : In row1 (rows_with_key requester tok (deviceTokens (tables p1)))).
    { rewrite Hsel1. left. reflexivity. }
    apply filter_In in Hin. tauto. }
  exists row1, p1, row2, p2.
  split.
  { unfold registerDevice. rewrite Hu1, String.eqb_refl. simpl.
    fold tok upd1 new1. rewrite Hup1. reflexivity. }
  split.
  { unfold registerDevice. rewrite Hu2, String.eqb_refl. simpl.
    rewrite Htok. fold tok upd2 new2. rewrite Hup2. reflexivity. }
  split; [exact Hsel2 |]. split; [exact Hlen2 |]. split.
  { rewrite Hrow2. unfold upd2. unfold key_of in Hkey1.
    injection Hkey1 as -> ->. reflexivity. }
  split.
  { rewrite find_filter_head in Hcase1.
    destruct (hd_error (filter (same_key requester tok)
                          (deviceTokens (tables (connected db)))))
      as [old |].
    - destruct Hcase1 as [-> _]. simpl. exact Hlt.
    - destruct Hcase1 as [-> _]. simpl. unfold advances_to.
      destruct (lastUsedAt_default t1) as [v |] eqn:E; [| exact I].
      specialize (Hdflt _ _ E). lia. }
  intros Habsent. rewrite find_filter_head in Hcase1.
  simpl in Hcase1.
  change (filter (same_key requester tok) (deviceTokens db))
    with (rows_with_key requester tok (deviceTokens db)) in Hcase1.
  rewrite Habsent in Hcase1. simpl in Hcase1. destruct Hcase1 as [-> Happ].
  split; [reflexivity | exact Happ].
Qed.

Lemma registerDevice_foreign_user_conflict_witness :
  registerDevice (fun t => Some t) (connected Fixture.school) 200%Z
    Fixture.registerPhone "g2"
  = (Throw (AppError ConflictError "User ID does not match authenticated user"),
     connected Fixture.school).
Proof.
  apply (registerDevice_foreign_user_conflict (fun t => Some t)
           (connected Fixture.school) 200%Z Fixture.registerPhone "g2").
  simpl. discriminate.
Defined.

Lemma school_unique_keys : unique_keys (deviceTokens Fixture.school).
Proof.
  unfold unique_keys. simpl. repeat constructor; simpl; intuition discriminate.
Defined.

Lemma registerDevice_upsert_witness :
  exists row1 p1 row2 p2,
    registerDevice (fun t => Some t) (connected Fixture.school) 200%Z
      Fixture.registerPhone "g1" = (Return row1, p1) /\
    registerDevice (fun t => Some t) p1 300%Z Fixture.registerBrowser "g1"
      = (Return row2, p2) /\
    rows_with_key "g1" "tok-g1" (deviceTokens (tables p2)) = [row2] /\
    dt_platform row2 = WEB /\ dt_isActive row2 = true /\
    dt_lastUsedAt row2 = Some 300%Z /\
    advances_to (dt_lastUsedAt row1) 300%Z.
Proof.
  destruct (registerDevice_upsert (fun t => Some t) Fixture.school "g1"
              Fixture.registerPhone Fixture.registerBrowser 200%Z 300%Z)
    as [row1 [p1 [row2 [p2 [H1 [H2 [Hsel [_ [Hrow [Hadv _]]]]]]]]]].
  - exact school_unique_keys.
  - reflexivity.
  - reflexivity.
  - reflexivity.
  - intros t v E. injection E as <-. lia.
  - lia.
  - exists row1, p1, row2, p2. subst row2.
    repeat split; try assumption.
Defined.

(** ** Enqueue *)

Lemma redis_unavailable_warning_nonempty : redis_unavailable_warning <> "".
Proof. unfold redis_unavailable_warning. discriminate. Qed.

(** An error carrying one of the connectivity codes is classified as a
    queue-backend failure whatever its name and message. *)
Lemma connectivity_code_isRedisError (name message c : string) :
  In c connectivity_codes -> isRedisError (FError name message (Some c)) = true.
Proof.
  intros Hc. unfold isRedisError.
  assert (H : code_is (FError name message (Some c)) "ECONNREFUSED"
              || code_is (FError name message (Some c)) "ENOTFOUND"
              || code_is (FError name message (Some c)) "ETIMEDOUT"
              || code_is (FError name message (Some c)) "ECONNRESET" = true).
  { simpl in Hc. destruct Hc as [<- | [<- | [<- | [<- | []]]]]; reflexivity. }
  rewrite !orb_true_iff in *. tauto.
Qed.

(** What [enqueueNotification] does once the recipients are resolved. *)
Lemma enqueue_after_resolution (prisma : Prisma) (queue : Queue)
    (input : SendNotificationInput) (initiatedBy : string) (ids : list string) :
  resolveRecipientUserIds prisma input = inr ids ->
  ids <> [] ->
  enqueueNotification prisma queue input initiatedBy =
  match add queue (jobData_for input ids initiatedBy) with
  | inr _ => Return {| queued := true; recipientCount := List.length ids;
                       warning := None |}
  | inl error =>
      Return {| queued := false; recipientCount := List.length ids;
                warning :=
                  Some (if isRedisError error then redis_unavailable_warning
                        else "Notification queue error: "
                             ++ ForeignOps.message_or_string error
                             ++ ". Please check Redis connection.") |}
  end.
Proof.
  intros Hres Hne. unfold enqueueNotification, jobData_for. rewrite Hres.
  destruct ids as [| id rest]; [congruence |]. simpl.
  destruct (add queue _) as [error | job]; [| reflexivity].
  destruct (isRedisError error); reflexivity.
Qed.

(** C1: when the recipients resolve to a non-empty set of N ids and the
    queue's [add] rejects with a connectivity error, [enqueueNotification]
    does not throw: it returns [queued = false], [recipientCount = N] and
    the (non-empty) queue-unavailable warning. *)
Theorem enqueue_degrades_on_connectivity_failure (prisma : Prisma) (queue : Queue)
    (input : SendNotificationInput) (initiatedBy : string) (ids : list string)
    (error : Foreign) :
  resolveRecipientUserIds prisma input = inr ids ->
  ids <> [] ->
  add queue (jobData_for input ids initiatedBy) = inl error ->
  isRedisError error = true ->
  enqueueNotification prisma queue input initiatedBy
  = Return {| queued := false;
              recipientCount := List.length ids;
              warning := Some redis_unavailable_warning |}
  /\ redis_unavailable_warning <> "".
Proof.
  intros Hres Hne Hadd Hcls. split; [| apply redis_unavailable_warning_nonempty].
  rewrite (enqueue_after_resolution prisma queue input initiatedBy ids Hres Hne).
  rewrite Hadd, Hcls. reflexivity.
Qed.

Lemma enqueue_degrades_on_connectivity_failure_witness :
  enqueueNotification (connected Fixture.school) Fixture.downQueue
    Fixture.toParentsAndClass "admin"
  = Return {| queued := false; recipientCount := 4;
              warning := Some redis_unavailable_warning |}
  /\ redis_unavailable_warning <> "".
Proof.
  apply (enqueue_degrades_on_connectivity_failure (connected Fixture.school)
           Fixture.downQueue Fixture.toParentsAndClass "admin"
           ["g1"; "g2"; "t1"; "t2"] Fixture.refused).
  - reflexivity.
  - discriminate.
  - reflexivity.
  - reflexivity.
Defined.

(** C9: once the recipients are resolved to a non-empty set,
    [enqueueNotification] returns whatever [add] does; every rejection of
    [add], classified as a backend failure or not, becomes a response with
    [queued = false], the recipient count and a non-empty warning. So when
    [enqueueNotification] throws, it throws a not-found error, and the
    recipients were not resolved to a non-empty set. *)
Theorem enqueue_throws_only_before_add (prisma : Prisma) (queue : Queue)
    (input : SendNotificationInput) (initiatedBy : string) :
  (forall ids, resolveRecipientUserIds prisma input = inr ids -> ids <> [] ->
     exists res,
       enqueueNotification prisma queue input initiatedBy = Return res /\
       recipientCount res = List.length ids /\
       forall error, add queue (jobData_for input ids initiatedBy) = inl error ->
                     queued res = false /\
                     exists w, warning res = Some w /\ w <> "") /\
  (forall t, enqueueNotification prisma queue input initiatedBy = Throw t ->
     (exists msg, t = AppError NotFoundError msg) /\
     ((exists e, resolveRecipientUserIds prisma input = inl e) \/
      resolveRecipientUserIds prisma input = inr [])).
Proof.
  split.
  - intros ids Hres Hne.
    rewrite (enqueue_after_resolution prisma queue input initiatedBy ids Hres Hne).
    destruct (add queue _) as [error | job].
    + eexists. split; [reflexivity |]. split; [reflexivity |].
      intros error' Heq. injection Heq as <-. split; [reflexivity |].
      eexists. split; [reflexivity |].
      destruct (isRedisError error);
        [apply redis_unavailable_warning_nonempty | simpl; discriminate].
    + eexists. split; [reflexivity |]. split; [reflexivity |].
      intros error Heq. discriminate.
  - intros t Hthrow.
    destruct (resolveRecipientUserIds prisma input) as [e | ids] eqn:Hres.
    + unfold enqueueNotification in Hthrow. rewrite Hres in Hthrow.
      injection Hthrow as <-. split; eauto.
    + destruct ids as [| id rest].
      * unfold enqueueNotification in Hthrow. rewrite Hres in Hthrow.
        simpl in Hthrow. injection Hthrow as <-. split; eauto.
      * rewrite (enqueue_after_resolution prisma queue input initiatedBy
                   (id :: rest) Hres) in Hthrow by discriminate.
        destruct (add queue _); discriminate.
Qed.

(** An error that the inspection of message, code and name does not
    classify (a thrown string) is downgraded all the same. *)
Lemma enqueue_throws_only_before_add_witness :
  exists res,
    enqueueNotification (connected Fixture.school)
      {| add := fun _ => inl (FString "boom");
         getJobs := fun _ _ _ _ => inr [] |}
      Fixture.toParents "admin" = Return res /\
    isRedisError (FString "boom") = false /\
    recipientCount res = 2%nat /\
    queued res = false /\
    warning res
    = Some "Notification queue error: boom. Please check Redis connection.".
Proof.
  pose (q := {| add := fun _ : NotificationJobData => inl (FString "boom") : Await Job;
                getJobs := fun _ _ _ _ => inr [] |}).
  destruct (enqueue_throws_only_before_add (connected Fixture.school) q
              Fixture.toParents "admin") as [Hret _].
  destruct (Hret ["g1"; "g2"]) as [res [Hres [Hcount Herr]]].
  - reflexivity.
  - discriminate.
  - exists res. split; [exact Hres |]. split; [reflexivity |].
    split; [exact Hcount |].
    destruct (Herr (FString "boom")) as [Hq _]; [reflexivity |].
    split; [exact Hq |].
    vm_compute in Hres. injection Hres as <-. reflexivity.
Defined.

(** ** Job history *)

Lemma effective_limit_default : effective_limit {| limit := None |} = 50%Z.
Proof. reflexivity. Qed.

Lemma effective_limit_given (n : Z) :
  (1 <= n <= 100)%Z -> effective_limit {| limit := Some n |} = n.
Proof.
  intros Hn. unfold effective_limit. simpl.
  destruct (Z.eqb_spec n 0); [lia | reflexivity].
Qed.

(** The summaries of a list of jobs carry the jobs' fields, one for each
    job and in the same order. *)
Lemma toItem_summarises (jobs : list Job) :
  Forall2 summarises (map toItem jobs) jobs.
Proof.
  induction jobs as [| job jobs IH]; simpl; constructor; [| exact IH].
  unfold summarises. simpl. tauto.
Qed.

(** Filtering the summaries on their recipients keeps the summaries of the
    jobs addressed to the user. *)
Lemma filter_summaries (userId : string) (jobs : list Job) :
  filter (fun item => Js.array_includes (it_recipientUserIds item) userId)
         (map toItem jobs)
  = map toItem (addressed_to userId jobs).
Proof.
  unfold addressed_to.
  induction jobs as [| job jobs IH]; simpl; [reflexivity |].
  destruct (Js.array_includes (jd_recipientUserIds (job_data job)) userId); simpl;
    now rewrite IH.
Qed.

(** What the listing returns, given what the queue answers. *)
Lemma listNotifications_returns (queue : Queue) (requesterRole requesterUserId : string)
    (query : ListNotificationsQuery) (jobs : list Job) (last : Z) :
  last = match limit query with
         | Some n => if (n =? 0)%Z then 49%Z else (n - 1)%Z
         | None => 49%Z
         end ->
  getJobs queue [completed; failed] 0%Z last false = inr jobs ->
  listNotifications queue requesterRole requesterUserId query
  = Return (map toItem (if requesterRole =? "SCHOOL_ADMIN" then jobs
                        else addressed_to requesterUserId jobs)).
Proof.
  intros -> Hjobs. unfold listNotifications, effective_limit.
  assert (E : (match limit query with
               | Some n => if (n =? 0)%Z then 50 else n
               | None => 50
               end - 1)%Z
              = match limit query with
                | Some n => if (n =? 0)%Z then 49%Z else (n - 1)%Z
                | None => 49%Z
                end).
  { destruct (limit query) as [n |]; [destruct (n =? 0)%Z |]; reflexivity. }
  rewrite E, Hjobs.
  destruct (requesterRole =? "SCHOOL_ADMIN"); [reflexivity |].
  now rewrite filter_summaries.
Qed.

(** C5: the listing asks the queue for the completed and failed jobs from
    index 0 to [limit - 1], where [limit] is the limit of the query, or 50
    when the query gives none (or 0). Of the jobs the queue answers, an
    administrator receives one summary for each, in the same order and
    carrying the job's id, title, message, recipients, initiator and times;
    any other requester receives in this way exactly the jobs whose
    [recipientUserIds] include the requester's own id. *)
Theorem listNotifications_visibility (queue : Queue) (requesterRole requesterUserId : string)
    (query : ListNotificationsQuery) (jobs : list Job) (last : Z) :
  last = match limit query with
         | Some n => if (n =? 0)%Z then 49%Z else (n - 1)%Z
         | None => 49%Z
         end ->
  getJobs queue [completed; failed] 0%Z last false = inr jobs ->
  exists items,
    listNotifications queue requesterRole requesterUserId query = Return items /\
    (requesterRole = "SCHOOL_ADMIN" -> Forall2 summarises items jobs) /\
    (requesterRole <> "SCHOOL_ADMIN" ->
     Forall2 summarises items (addressed_to requesterUserId jobs) /\
     (forall job, In job (addressed_to requesterUserId jobs) <->
                  In job jobs /\
                  In requesterUserId (jd_recipientUserIds (job_data job))) /\
     (forall item, In item items ->
                   In requesterUserId (it_recipientUserIds item))).
Proof.
  intros Hlast Hjobs.
  rewrite (listNotifications_returns queue requesterRole requesterUserId query
             jobs last Hlast Hjobs).
  eexists. split; [reflexivity |]. split.
  - intros ->. simpl. apply toItem_summarises.
  - intros Hrole. apply String.eqb_neq in Hrole. rewrite Hrole.
    split; [apply toItem_summarises |]. split.
    + intros job. unfold addressed_to. rewrite filter_In, array_includes_In.
      reflexivity.
    + intros item Hin. apply in_map_iff in Hin as [job [<- Hjob]].
      unfold addressed_to in Hjob. apply filter_In in Hjob as [_ Hjob].
      apply array_includes_In in Hjob. exact Hjob.
Qed.

Lemma listNotifications_visibility_witness :
  (exists items,
     listNotifications Fixture.historyQueue "SCHOOL_ADMIN" "admin" {| limit := None |}
     = Return items /\
     Forall2 summarises items [Fixture.failedJob; Fixture.staffJob]) /\
  (exists items,
     listNotifications Fixture.historyQueue "PARENT" "g1" {| limit := Some 10%Z |}
     = Return items /\
     Forall2 summarises items [Fixture.failedJob]).
Proof.
  split.
  - destruct (listNotifications_visibility Fixture.historyQueue "SCHOOL_ADMIN" "admin"
                {| limit := None |} [Fixture.failedJob; Fixture.staffJob] 49%Z
                eq_refl eq_refl) as [items [Hret [Hadmin _]]].
    exists items. split; [exact Hret | exact (Hadmin eq_refl)].
  - destruct (listNotifications_visibility Fixture.historyQueue "PARENT" "g1"
                {| limit := Some 10%Z |} [Fixture.failedJob; Fixture.staffJob] 9%Z
                eq_refl eq_refl) as [items [Hret [_ Hother]]].
    exists items. split; [exact Hret |].
    assert (Hrole : "PARENT" <> "SCHOOL_ADMIN") by discriminate.
    exact (proj1 (Hother Hrole)).
Defined.

Lemma toItem_state (jobs : list Job) :
  Forall2 state_read_off_finish_time (map toItem jobs) jobs.
Proof.
  induction jobs as [| job jobs IH]; simpl; constructor; [| exact IH].
  unfold state_read_off_finish_time. simpl.
  split; [reflexivity |]. split; [reflexivity |]. split; [| split].
  - intros t -> Ht. simpl. apply Z.eqb_neq in Ht. rewrite Ht. reflexivity.
  - intros ->. reflexivity.
  - intros why -> Hwhy. simpl. apply String.eqb_neq in Hwhy.
    unfold Js.truthy. rewrite Hwhy. reflexivity.
Qed.

(** C10: the listing returns one summary for each job it shows (all the
    jobs the queue answers for an administrator, those addressed to the
    requester otherwise), and in each the state is read off the job's
    [finishedOn] alone: "completed" when the job has a (non-zero) finish
    time, "failed" when it has none. The failure reason of the job plays no
    part in the state and is shown beside it, so a job that failed and has
    a finish time is listed as "completed" with its failure reason. *)
Theorem listNotifications_state_from_finishedOn (queue : Queue)
    (requesterRole requesterUserId : string) (query : ListNotificationsQuery)
    (jobs : list Job) (last : Z) :
  last = match limit query with
         | Some n => if (n =? 0)%Z then 49%Z else (n - 1)%Z
         | None => 49%Z
         end ->
  getJobs queue [completed; failed] 0%Z last false = inr jobs ->
  exists items,
    listNotifications queue requesterRole requesterUserId query = Return items /\
    (requesterRole = "SCHOOL_ADMIN" ->
     Forall2 state_read_off_finish_time items jobs) /\
    (requesterRole <> "SCHOOL_ADMIN" ->
     Forall2 state_read_off_finish_time items (addressed_to requesterUserId jobs)).
Proof.
  intros Hlast Hjobs.
  rewrite (listNotifications_returns queue requesterRole requesterUserId query
             jobs last Hlast Hjobs).
  eexists. split; [reflexivity |]. split.
  - intros ->. simpl. apply toItem_state.
  - intros Hrole. apply String.eqb_neq in Hrole. rewrite Hrole. apply toItem_state.
Qed.

Lemma listNotifications_state_from_finishedOn_witness :
  exists failedItem staffItem,
    listNotifications Fixture.historyQueue "SCHOOL_ADMIN" "admin" {| limit := None |}
    = Return [failedItem; staffItem] /\
    it_id failedItem = "7" /\
    it_state failedItem = "completed" /\
    it_failedReason failedItem = Some "FCM send failed: 503 unavailable" /\
    it_id staffItem = "8" /\
    it_state staffItem = "failed".
Proof.
  destruct (listNotifications_state_from_finishedOn Fixture.historyQueue
              "SCHOOL_ADMIN" "admin" {| limit := None |}
              [Fixture.failedJob; Fixture.staffJob] 49%Z eq_refl eq_refl)
    as [items [Hret [Hadmin _]]].
  specialize (Hadmin eq_refl).
  inversion Hadmin as [| failedItem j1 rest l1 H1 Hrest]; subst.
  inversion Hrest as [| staffItem j2 rest' l2 H2 Hnil]; subst.
  inversion Hnil; subst.
  destruct H1 as [Hid1 [_ [Hdone [_ Hwhy]]]].
  destruct H2 as [Hid2 [_ [_ [Hfail _]]]].
  exists failedItem, staffItem. split; [exact Hret |].
  split; [exact Hid1 |].
  split; [apply (Hdone 1700000020000%Z); [reflexivity | discriminate] |].
  split; [apply Hwhy; [reflexivity | discriminate] |].
  split; [exact Hid2 | apply Hfail; reflexivity].
Defined.

(** ** Delivery worker *)

(** The rows the token lookup answers: the stored rows of the given users
    that are active. *)
Lemma getDeviceTokensForUsers_rows (prisma : Prisma) (ids : list string)
    (rows : list DeviceToken) :
  getDeviceTokensForUsers prisma ids = inr rows ->
  forall row, In row rows <->
              In row (deviceTokens (tables prisma)) /\
              In (dt_userId row) ids /\ dt_isActive row = true.
Proof.
  unfold getDeviceTokensForUsers, findMany.
  destruct (fault prisma); [discriminate |].
  intros Heq row. injection Heq as <-.
  rewrite filter_In, andb_true_iff, array_includes_In. reflexivity.
Qed.

Lemma filter_none {A : Type} (f : A -> bool) (l : list A) :
  (forall a, In a l -> f a = false) -> filter f l = [].
Proof.
  induction l as [| a l IH]; intros H; simpl; [reflexivity |].
  rewrite (H a) by (left; reflexivity). apply IH. intros b Hb. apply H. now right.
Qed.

(** C8: the token lookup answers only active rows of the given users; and
    a job none of whose recipients has an active stored token completes with
    the status "no-tokens", no provider function entered and no gateway
    contacted. *)
Theorem worker_skips_recipients_without_active_tokens :
  (forall prisma ids rows,
     getDeviceTokensForUsers prisma ids = inr rows ->
     forall row, In row rows ->
       dt_isActive row = true /\ In (dt_userId row) ids /\
       In row (deviceTokens (tables prisma))) /\
  (forall db env gw job,
     (forall row, In row (deviceTokens db) ->
                  In (dt_userId row) (jd_recipientUserIds (job_data job)) ->
                  dt_isActive row = false) ->
     process (connected db) env gw job
     = {| completion := inr NoTokens; run_results := []; run_events := [] |}).
Proof.
  split.
  - intros prisma ids rows Heq row Hin.
    apply (getDeviceTokensForUsers_rows prisma ids rows Heq) in Hin. tauto.
  - intros db env gw job Hnone. unfold process, getDeviceTokensForUsers, findMany.
    simpl. rewrite filter_none; [reflexivity |].
    intros row Hin.
    destruct (Js.array_includes _ _) eqn:E; [| reflexivity].
    apply array_includes_In in E. rewrite (Hnone row Hin E). reflexivity.
Qed.

(** The two teachers have no stored token, and the only token of g2 is
    inactive. *)
Lemma worker_skips_recipients_without_active_tokens_witness :
  process (connected Fixture.school) Fixture.bothConfigured Fixture.oneSignalDown
    Fixture.staffOnlyJob
  = {| completion := inr NoTokens; run_results := []; run_events := [] |} /\
  getDeviceTokensForUsers (connected Fixture.school) ["g1"; "g2"]
  = inr [ {| dt_userId := "g1"; dt_token := "tok-g1"; dt_platform := ANDROID;
             dt_isActive := true; dt_lastUsedAt := Some 100%Z |} ].
Proof.
  destruct worker_skips_recipients_without_active_tokens as [_ Hskip].
  split; [| reflexivity].
  apply Hskip. intros row Hin Hrec. simpl in Hin, Hrec.
  destruct Hin as [<- | [<- | []]]; simpl in *; [| reflexivity].
  destruct Hrec as [H | [H | []]]; discriminate.
Defined.

(** With tokens to deliver to and a OneSignal attempt that could be
    recorded, the job is marked failed exactly when the FCM call rejects. *)
Lemma process_failed_iff_fcm_rejects (db : Database) (env : Env) (gw : Gateways)
    (job : Job) (rows : list DeviceToken) :
  getDeviceTokensForUsers (connected db) (jd_recipientUserIds (job_data job))
    = inr rows ->
  rows <> [] ->
  rejects_without_properties
    (fst (sendViaOneSignal env gw (job_data job) (map dt_token rows))) = false ->
  marked_failed (process (connected db) env gw job) = true <->
  exists e, fst (sendViaFcm env gw (job_data job) (map dt_token rows)) = inl e.
Proof.
  intros Hrows Hne Hos. unfold process, marked_failed. rewrite Hrows.
  destruct rows as [| row rows]; [congruence |]. cbn [map List.length Nat.eqb].
  cbn [map] in Hos.
  destruct (sendViaOneSignal env gw (job_data job) _) as [[[n m c | s | |] | r] ev1];
    try discriminate Hos;
    destruct (sendViaFcm env gw (job_data job) _)
      as [[[n' m' c' | s' | |] | fcmResult] ev2]; simpl;
    (split; [eauto | reflexivity]) || (split; [discriminate | intros [e He]; discriminate]).
Qed.

(** When the FCM call rejects with an error object after a OneSignal
    attempt that could be recorded, the job is marked failed with that
    error, and the local result list holds the outcome of the OneSignal
    attempt, then the failure of FCM. *)
Lemma process_fcm_rejection (db : Database) (env : Env) (gw : Gateways)
    (job : Job) (rows : list DeviceToken) (name message : string)
    (code : option string) :
  getDeviceTokensForUsers (connected db) (jd_recipientUserIds (job_data job))
    = inr rows ->
  rows <> [] ->
  rejects_without_properties
    (fst (sendViaOneSignal env gw (job_data job) (map dt_token rows))) = false ->
  fst (sendViaFcm env gw (job_data job) (map dt_token rows))
    = inl (FError name message code) ->
  completion (process (connected db) env gw job) = inl (FError name message code) /\
  exists osOutcome,
    provider osOutcome = "onesignal" /\
    run_results (process (connected db) env gw job)
    = [osOutcome; {| provider := "fcm"; success := false; reason := Some message |}].
Proof.
  intros Hrows Hne Hos Hfcm. unfold process. rewrite Hrows.
  destruct rows as [| row rows]; [congruence |]. cbn [map List.length Nat.eqb].
  cbn [map] in Hfcm, Hos.
  destruct (sendViaFcm env gw (job_data job) _) as [fcm ev2]. simpl in Hfcm. subst fcm.
  revert Hos. unfold sendViaOneSignal.
  destruct (negb _ || negb _).
  - intros _. simpl. split; [reflexivity |]. eexists. split; [| reflexivity]. reflexivity.
  - destruct (createNotification gw _ _) as [[n m c | s | |] | u]; simpl;
      intros Hos; try discriminate Hos;
      (split; [reflexivity |]); eexists; (split; [| reflexivity]); reflexivity.
Qed.

(** C2 fails on the code for the first provider: OneSignal is configured
    and its call raises (the gateway times out), FCM is not configured; the
    job has an active token to deliver to. The handler records the failure
    and returns the status "sent": the job is completed, not failed, and not
    eligible for a retry. *)
Theorem process_swallows_onesignal_rejection :
  fst (sendViaOneSignal Fixture.oneSignalOnly Fixture.oneSignalDown
         Fixture.meeting ["tok-g1"]) = inl Fixture.timedOut /\
  process (connected Fixture.school) Fixture.oneSignalOnly
    Fixture.oneSignalDown Fixture.meetingJob
  = {| completion :=
         inr (Sent [ {| provider := "onesignal"; success := false;
                        reason := Some "connect ETIMEDOUT" |};
                     {| provider := "fcm"; success := false;
                        reason := Some "Not configured" |} ]);
       run_results :=
         [ {| provider := "onesignal"; success := false;
              reason := Some "connect ETIMEDOUT" |};
           {| provider := "fcm"; success := false;
              reason := Some "Not configured" |} ];
       run_events :=
         [ Entered "onesignal" ["tok-g1"]; Requested "onesignal" ["tok-g1"];
           Entered "fcm" ["tok-g1"] ] |} /\
  marked_failed (process (connected Fixture.school) Fixture.oneSignalOnly
                   Fixture.oneSignalDown Fixture.meetingJob) = false /\
  eligible_for_retry 0 (process (connected Fixture.school) Fixture.oneSignalOnly
                          Fixture.oneSignalDown Fixture.meetingJob) = false.
Proof.
  repeat split; reflexivity.
Qed.

(** The same with both providers configured and FCM delivering. *)
Example onesignal_rejection_with_fcm_delivering :
  completion (process (connected Fixture.school) Fixture.bothConfigured
                Fixture.oneSignalDown Fixture.meetingJob)
  = inr (Sent [ {| provider := "onesignal"; success := false;
                   reason := Some "connect ETIMEDOUT" |};
                {| provider := "fcm"; success := true; reason := None |} ]) /\
  marked_failed (process (connected Fixture.school) Fixture.bothConfigured
                   Fixture.oneSignalDown Fixture.meetingJob) = false.
Proof.
  split; reflexivity.
Qed.

(** * Further properties *)

(** ** Recipient resolver and enqueue *)

Lemma refine_false (r : Recipients) :
  recipients_refine r = false ->
  present (userIds r) = false /\ present (roles r) = false /\
  present (classIds r) = false.
Proof.
  unfold recipients_refine. intros H.
  apply orb_false_iff in H as [H Hc]. apply orb_false_iff in H as [Hu Hr]. auto.
Qed.

(** X1: a filter none of whose categories lists anything makes the resolver
    return the empty list without a lookup, whether the database is
    reachable or not, and [enqueueNotification] throws the not-found error
    "No recipients found for the provided criteria" whatever the queue. *)
Theorem empty_filter_resolves_to_nothing (prisma : Prisma) (queue : Queue)
    (payload : SendNotificationInput) (initiatedBy : string) :
  recipients_refine (sn_recipients payload) = false ->
  resolveRecipientUserIds prisma payload = inr [] /\
  enqueueNotification prisma queue payload initiatedBy
  = Throw (AppError NotFoundError "No recipients found for the provided criteria").
Proof.
  intros H. apply refine_false in H as [Hu [Hr Hc]].
  assert (E : resolveRecipientUserIds prisma payload = inr []).
  { unfold resolveRecipientUserIds. cbv zeta. rewrite Hu, Hr, Hc. reflexivity. }
  split; [exact E |]. unfold enqueueNotification. rewrite E. reflexivity.
Qed.

Lemma empty_filter_resolves_to_nothing_witness :
  resolveRecipientUserIds Sample.unreachable Sample.emptyFilter = inr [] /\
  enqueueNotification Sample.unreachable Fixture.historyQueue Sample.emptyFilter "admin"
  = Throw (AppError NotFoundError "No recipients found for the provided criteria").
Proof.
  apply (empty_filter_resolves_to_nothing Sample.unreachable Fixture.historyQueue
           Sample.emptyFilter "admin").
  reflexivity.
Defined.

(** X2: when the filter lists something and the database is unreachable,
    the resolver rejects with the database's error, and
    [enqueueNotification] throws a not-found error carrying that error's
    message, whatever the queue. *)
Theorem resolver_failure_becomes_not_found (prisma : Prisma) (queue : Queue)
    (payload : SendNotificationInput) (initiatedBy : string) (e : Foreign) :
  recipients_refine (sn_recipients payload) = true ->
  fault prisma = Some e ->
  resolveRecipientUserIds prisma payload = inl e /\
  enqueueNotification prisma queue payload initiatedBy
  = Throw (AppError NotFoundError
             ("Failed to resolve recipients: " ++ ForeignOps.message_or_string e)).
Proof.
  intros Href Hf.
  assert (E : resolveRecipientUserIds prisma payload = inl e).
  { unfold resolveRecipientUserIds, findMany. cbv zeta. rewrite Hf.
    unfold recipients_refine in Href.
    destruct (present (userIds (sn_recipients payload))); [reflexivity |].
    destruct (present (roles (sn_recipients payload))); [reflexivity |].
    destruct (present (classIds (sn_recipients payload))); [reflexivity |].
    discriminate. }
  split; [exact E |]. unfold enqueueNotification. rewrite E. reflexivity.
Qed.

Lemma resolver_failure_becomes_not_found_witness :
  enqueueNotification Sample.unreachable Fixture.historyQueue Fixture.toParents "admin"
  = Throw (AppError NotFoundError
             "Failed to resolve recipients: Can't reach database server").
Proof.
  apply (resolver_failure_becomes_not_found Sample.unreachable Fixture.historyQueue
           Fixture.toParents "admin"
           (FError "PrismaClientInitializationError" "Can't reach database server"
              None));
    reflexivity.
Defined.

Lemma reachable_only_userIds (db : Database) (r : Recipients) (u : string) :
  reachable db (only_userIds r) u <-> listed_user db r u.
Proof.
  unfold reachable, listed_user, holds_listed_role, teaches_listed_class,
    guardian_in_listed_class. simpl. split; [| tauto].
  intros [H | [[x [_ [_ []]]] | [[x [_ [_ []]]] | [x [y [_ [_ [_ []]]]]]]]]. exact H.
Qed.

Lemma reachable_only_the_roles (db : Database) (r : Recipients) (u : string) :
  reachable db (only_the_roles r) u <-> holds_listed_role db r u.
Proof.
  unfold reachable, listed_user, holds_listed_role, teaches_listed_class,
    guardian_in_listed_class. simpl. split; [| tauto].
  intros [[x [_ [_ []]]] | [H | [[x [_ [_ []]]] | [x [y [_ [_ [_ []]]]]]]]]. exact H.
Qed.

Lemma reachable_only_classIds (db : Database) (r : Recipients) (u : string) :
  reachable db (only_classIds r) u <->
  teaches_listed_class db r u \/ guardian_in_listed_class db r u.
Proof.
  unfold reachable, listed_user, holds_listed_role, teaches_listed_class,
    guardian_in_listed_class. simpl. split; [| tauto].
  intros [[x [_ [_ []]]] | [[x [_ [_ []]]] | H]]. exact H.
Qed.

(** X3: resolution is a union over the categories of the filter: an id is
    returned for a filter exactly when it is returned for the filter cut
    down to its user ids, to its roles, or to its class ids. *)
Theorem resolver_is_union_of_categories (db : Database)
    (payload : SendNotificationInput) :
  exists ids byIds byRoles byClasses,
    resolveRecipientUserIds (connected db) payload = inr ids /\
    resolveRecipientUserIds (connected db)
      (with_recipients payload (only_userIds (sn_recipients payload))) = inr byIds /\
    resolveRecipientUserIds (connected db)
      (with_recipients payload (only_the_roles (sn_recipients payload))) = inr byRoles /\
    resolveRecipientUserIds (connected db)
      (with_recipients payload (only_classIds (sn_recipients payload))) = inr byClasses /\
    forall u, In u ids <-> In u byIds \/ In u byRoles \/ In u byClasses.
Proof.
  destruct (resolve_spec db payload) as [ids [H [_ Hin]]].
  destruct (resolve_spec db (with_recipients payload (only_userIds (sn_recipients payload))))
    as [byIds [HI [_ HinI]]].
  destruct (resolve_spec db (with_recipients payload (only_the_roles (sn_recipients payload))))
    as [byRoles [HR [_ HinR]]].
  destruct (resolve_spec db (with_recipients payload (only_classIds (sn_recipients payload))))
    as [byClasses [HC [_ HinC]]].
  exists ids, byIds, byRoles, byClasses. repeat (split; [assumption |]).
  intros u. rewrite Hin, HinI, HinR, HinC. simpl.
  rewrite reachable_only_userIds, reachable_only_the_roles, reachable_only_classIds.
  unfold reachable. tauto.
Qed.

Lemma ids_by_userIds_activity (r : Recipients) (us vs : list User) :
  Forall2 same_user_but_activity us vs ->
  map user_id (filter (fun u => Js.array_includes (listed (userIds r)) (user_id u)) us)
  = map user_id (filter (fun u => Js.array_includes (listed (userIds r)) (user_id u)) vs).
Proof.
  induction 1 as [| u v us vs [Hid Hrole] _ IH]; simpl; [reflexivity |].
  rewrite Hid. destruct (Js.array_includes _ _); simpl; [rewrite Hid |]; now rewrite IH.
Qed.

Lemma ids_by_roles_activity (r : Recipients) (us vs : list User) :
  Forall2 same_user_but_activity us vs ->
  map user_id (filter (fun u => Js.array_includes (listed (roles r))
                                  (role_name (user_role u))) us)
  = map user_id (filter (fun u => Js.array_includes (listed (roles r))
                                    (role_name (user_role u))) vs).
Proof.
  induction 1 as [| u v us vs [Hid Hrole] _ IH]; simpl; [reflexivity |].
  rewrite Hrole. destruct (Js.array_includes _ _); simpl; [rewrite Hid |]; now rewrite IH.
Qed.

Lemma guardian_ids_activity (r : Recipients) (ss ts : list Student) :
  Forall2 same_student_but_activity ss ts ->
  guardian_ids (filter (fun st => Js.array_includes (listed (classIds r))
                                    (student_classId st)) ss)
  = guardian_ids (filter (fun st => Js.array_includes (listed (classIds r))
                                      (student_classId st)) ts).
Proof.
  induction 1 as [| s t ss ts [Hc Hp] _ IH]; simpl; [reflexivity |].
  rewrite Hc. destruct (Js.array_includes _ _); simpl; [rewrite Hp |]; now rewrite IH.
Qed.

(** X4: the resolver never looks at activity: on two databases that differ
    only in the [isActive] flags of users and students it returns the same
    list, in the same order. *)
Theorem resolver_ignores_activity (db db' : Database)
    (payload : SendNotificationInput) :
  same_but_activity db db' ->
  resolveRecipientUserIds (connected db) payload
  = resolveRecipientUserIds (connected db') payload.
Proof.
  intros [Hu [Ht Hs]]. rewrite !resolve_connected.
  unfold ids_by_userIds, ids_by_roles, ids_by_class_teachers, ids_by_class_guardians.
  rewrite (ids_by_userIds_activity _ _ _ Hu), (ids_by_roles_activity _ _ _ Hu),
          (guardian_ids_activity _ _ _ Hs), Ht.
  reflexivity.
Qed.

Lemma resolver_ignores_activity_witness :
  resolveRecipientUserIds (connected Fixture.school) Fixture.toParentsAndClass
  = resolveRecipientUserIds (connected Sample.schoolOtherFlags) Fixture.toParentsAndClass.
Proof.
  apply (resolver_ignores_activity Fixture.school Sample.schoolOtherFlags
           Fixture.toParentsAndClass).
  split; [| split]; simpl.
  - repeat constructor.
  - reflexivity.
  - repeat constructor.
Defined.

(** X5: a response of [enqueueNotification] always counts at least one
    recipient, and carries a warning exactly when the job was not queued. *)
Theorem enqueue_response_shape (prisma : Prisma) (queue : Queue)
    (input : SendNotificationInput) (initiatedBy : string) (res : EnqueueResult) :
  enqueueNotification prisma queue input initiatedBy = Return res ->
  (0 < recipientCount res)%nat /\
  (queued res = true <-> warning res = None) /\
  exists ids,
    resolveRecipientUserIds prisma input = inr ids /\
    recipientCount res = List.length ids /\
    (queued res = true <->
     exists job, add queue (jobData_for input ids initiatedBy) = inr job).
Proof.
  intros Hret.
  destruct (resolveRecipientUserIds prisma input) as [e | ids] eqn:Hres.
  { unfold enqueueNotification in Hret. rewrite Hres in Hret. discriminate. }
  destruct ids as [| id rest].
  { unfold enqueueNotification in Hret. rewrite Hres in Hret. discriminate. }
  rewrite (enqueue_after_resolution prisma queue input initiatedBy (id :: rest) Hres)
    in Hret by discriminate.
  destruct (add queue (jobData_for input (id :: rest) initiatedBy))
    as [err | job] eqn:Hadd; inversion Hret; subst res; simpl.
  - split; [lia |]. split; [split; discriminate |].
    exists (id :: rest). split; [reflexivity |]. split; [reflexivity |].
    split; [discriminate | intros [j Hj]; congruence].
  - split; [lia |]. split; [tauto |].
    exists (id :: rest). split; [reflexivity |]. split; [reflexivity |].
    split; [eauto | reflexivity].
Qed.

Lemma enqueue_response_shape_witness :
  exists res,
    enqueueNotification (connected Fixture.school) Fixture.historyQueue
      Fixture.toParents "admin" = Return res /\
    recipientCount res = 2%nat /\ queued res = true /\ warning res = None.
Proof.
  eexists. split; [reflexivity |].
  destruct (enqueue_response_shape (connected Fixture.school) Fixture.historyQueue
              Fixture.toParents "admin" _ eq_refl) as [_ [Hw _]].
  split; [reflexivity |]. split; [reflexivity |]. apply Hw. reflexivity.
Defined.

(** ** Device token store *)

Lemma update_first_In {Row : Type} (sel : Row -> bool) (upd : Row -> Row)
    (rows : list Row) (old : Row) :
  find sel rows = Some old -> In (upd old) (update_first sel upd rows).
Proof.
  induction rows as [| r rows IH]; simpl; [discriminate |].
  destruct (sel r).
  - intros H. injection H as ->. left. reflexivity.
  - intros H. right. now apply IH.
Qed.

Lemma update_first_other_keys (userId token userId' token' : string)
    (upd : DeviceToken -> DeviceToken) (rows : list DeviceToken) :
  (forall r, key_of (upd r) = key_of r) ->
  (userId', token') <> (userId, token) ->
  rows_with_key userId' token' (update_first (same_key userId token) upd rows)
  = rows_with_key userId' token' rows.
Proof.
  intros Hupd Hneq. unfold rows_with_key.
  induction rows as [| r rows IH]; simpl; [reflexivity |].
  destruct (same_key userId token r) eqn:E; simpl.
  - apply same_key_iff in E.
    assert (E1 : same_key userId' token' (upd r) = false).
    { destruct (same_key userId' token' (upd r)) eqn:E1; [| reflexivity].
      apply same_key_iff in E1. rewrite Hupd in E1. congruence. }
    assert (E2 : same_key userId' token' r = false).
    { destruct (same_key userId' token' r) eqn:E2; [| reflexivity].
      apply same_key_iff in E2. congruence. }
    rewrite E1, E2. reflexivity.
  - rewrite IH. reflexivity.
Qed.

(** What a registration does to the client, case by case. *)
Lemma registerDevice_state (lastUsedAt_default : Z -> option Z) (prisma : Prisma)
    (now : Z) (input : RegisterDeviceInput) (requester : string) :
  let after := snd (registerDevice lastUsedAt_default prisma now input requester) in
  after = prisma \/
  (fault prisma = None /\ rd_userId input = requester /\
   exists rows,
     after = with_deviceTokens prisma rows /\
     (rows = update_first (same_key (rd_userId input) (rd_deviceToken input))
               (fun row =>
                  {| dt_userId := dt_userId row; dt_token := dt_token row;
                     dt_platform := rd_platform input; dt_isActive := true;
                     dt_lastUsedAt := Some now |})
               (deviceTokens (tables prisma))
      \/
      (find (same_key (rd_userId input) (rd_deviceToken input))
            (deviceTokens (tables prisma)) = None /\
       rows = (deviceTokens (tables prisma)
               ++ [ {| dt_userId := rd_userId input;
                       dt_token := rd_deviceToken input;
                       dt_platform := rd_platform input;
                       dt_isActive := true;
                       dt_lastUsedAt := lastUsedAt_default now |} ])%list))).
Proof.
  unfold registerDevice.
  destruct (rd_userId input =? requester) eqn:Eu; simpl; [| left; reflexivity].
  apply String.eqb_eq in Eu. unfold upsert.
  destruct (fault prisma) eqn:Ef; simpl; [left; reflexivity |].
  right. split; [reflexivity |]. split; [assumption |].
  destruct (find _ (deviceTokens (tables prisma))) eqn:Efind; simpl.
  - eexists. split; [reflexivity |]. left. reflexivity.
  - eexists. split; [reflexivity |]. right. split; reflexivity.
Qed.

(** X6: whatever its outcome, a registration keeps the unique index on
    (userId, token) and touches nothing but the device-token table. *)
Theorem registerDevice_keeps_unique_index (lastUsedAt_default : Z -> option Z)
    (prisma : Prisma) (now : Z) (input : RegisterDeviceInput) (requester : string) :
  unique_keys (deviceTokens (tables prisma)) ->
  let after := snd (registerDevice lastUsedAt_default prisma now input requester) in
  unique_keys (deviceTokens (tables after)) /\
  users (tables after) = users (tables prisma) /\
  teacherClasses (tables after) = teacherClasses (tables prisma) /\
  students (tables after) = students (tables prisma) /\
  fault after = fault prisma.
Proof.
  intros Hu after.
  destruct (registerDevice_state lastUsedAt_default prisma now input requester)
    as [Hsame | [Hf [Hreq [rows [Hafter Hrows]]]]]; fold after in Hsame || fold after in Hafter.
  - rewrite Hsame. auto.
  - rewrite Hafter. simpl. repeat split.
    destruct Hrows as [-> | [Hnone ->]].
    + unfold unique_keys. rewrite update_first_keys; [assumption | reflexivity].
    + apply insert_unique; [assumption |].
      apply find_none_absent in Hnone. exact Hnone.
Qed.

Lemma registerDevice_keeps_unique_index_witness :
  unique_keys (deviceTokens (tables (snd (registerDevice (fun t => Some t)
     (connected Fixture.school) 200%Z Fixture.registerBrowser "g1")))).
Proof.
  apply (registerDevice_keeps_unique_index (fun t => Some t)
           (connected Fixture.school) 200%Z Fixture.registerBrowser "g1").
  exact school_unique_keys.
Defined.

(** X7: a registration leaves the rows stored under every other
    (userId, token) as they were. *)
Theorem registerDevice_leaves_other_rows (lastUsedAt_default : Z -> option Z)
    (prisma : Prisma) (now : Z) (input : RegisterDeviceInput) (requester : string)
    (userId' token' : string) :
  (userId', token') <> (rd_userId input, rd_deviceToken input) ->
  rows_with_key userId' token'
    (deviceTokens (tables (snd (registerDevice lastUsedAt_default prisma now input
                                  requester))))
  = rows_with_key userId' token' (deviceTokens (tables prisma)).
Proof.
  intros Hneq.
  destruct (registerDevice_state lastUsedAt_default prisma now input requester)
    as [Hsame | [Hf [Hreq [rows [Hafter Hrows]]]]].
  - simpl in Hsame. rewrite Hsame. reflexivity.
  - simpl in Hafter. rewrite Hafter. simpl.
    destruct Hrows as [-> | [Hnone ->]].
    + apply update_first_other_keys; [reflexivity | assumption].
    + unfold rows_with_key. rewrite filter_app. simpl.
      destruct (same_key userId' token' _) eqn:E.
      * apply same_key_iff in E. unfold key_of in E. simpl in E. congruence.
      * apply app_nil_r.
Qed.

Lemma registerDevice_leaves_other_rows_witness :
  rows_with_key "g2" "tok-g2"
    (deviceTokens (tables (snd (registerDevice (fun t => Some t)
       (connected Fixture.school) 200%Z Fixture.registerBrowser "g1"))))
  = rows_with_key "g2" "tok-g2" (deviceTokens Fixture.school).
Proof.
  apply (registerDevice_leaves_other_rows (fun t => Some t)
           (connected Fixture.school) 200%Z Fixture.registerBrowser "g1" "g2" "tok-g2").
  discriminate.
Defined.

(** X8: a device that registered successfully is a target of the worker at
    once: the token lookup for any list of users that contains its owner
    answers the row the registration returned, active and with the token
    registered. *)
Theorem registered_device_is_found (lastUsedAt_default : Z -> option Z)
    (prisma prisma' : Prisma) (now : Z) (input : RegisterDeviceInput)
    (requester : string) (row : DeviceToken) (ids : list string) :
  registerDevice lastUsedAt_default prisma now input requester = (Return row, prisma') ->
  In (rd_userId input) ids ->
  dt_token row = rd_deviceToken input /\
  exists rows, getDeviceTokensForUsers prisma' ids = inr rows /\ In row rows.
Proof.
  unfold registerDevice.
  destruct (rd_userId input =? requester) eqn:Eu; simpl; [| discriminate].
  unfold upsert. destruct (fault prisma) eqn:Ef; simpl; [discriminate |].
  destruct (find _ (deviceTokens (tables prisma))) as [old |] eqn:Efind; simpl;
    intros Heq Hin; injection Heq as <- <-.
  - pose proof (find_some _ _ Efind) as [_ Hkey].
    apply same_key_iff in Hkey. unfold key_of in Hkey. injection Hkey as Hku Hkt.
    split; [exact Hkt |].
    unfold getDeviceTokensForUsers, findMany. simpl. rewrite Ef.
    eexists. split; [reflexivity |]. apply filter_In. split.
    + exact (update_first_In _
               (fun r => {| dt_userId := dt_userId r; dt_token := dt_token r;
                            dt_platform := rd_platform input; dt_isActive := true;
                            dt_lastUsedAt := Some now |})
               _ old Efind).
    + simpl. rewrite Hku. apply andb_true_iff. split; [| reflexivity].
      now apply array_includes_In.
  - split; [reflexivity |].
    unfold getDeviceTokensForUsers, findMany. simpl. rewrite Ef.
    eexists. split; [reflexivity |]. apply filter_In. split.
    + apply in_or_app. right. left. reflexivity.
    + simpl. apply andb_true_iff. split; [| reflexivity].
      now apply array_includes_In.
Qed.

Lemma registered_device_is_found_witness :
  exists row prisma' rows,
    registerDevice (fun t => Some t) (connected Fixture.school) 200%Z
      Fixture.registerBrowser "g1" = (Return row, prisma') /\
    dt_token row = "tok-g1" /\
    getDeviceTokensForUsers prisma' ["g1"] = inr rows /\ In row rows.
Proof.
  eexists _, _.
  destruct (registered_device_is_found (fun t => Some t) (connected Fixture.school)
              _ 200%Z Fixture.registerBrowser "g1" _ ["g1"] eq_refl)
    as [Htok [rows [Hrows Hin]]].
  - left. reflexivity.
  - exists rows. split; [reflexivity |]. split; [exact Htok |].
    split; [exact Hrows | exact Hin].
Defined.

(** ** Delivery worker *)

Lemma sendViaOneSignal_events (env : Env) (gw : Gateways)
    (data : NotificationJobData) (tokens : list string) :
  Forall (fun e => event_tokens e = tokens)
         (snd (sendViaOneSignal env gw data tokens)) /\
  hd_error (snd (sendViaOneSignal env gw data tokens)) = Some (Entered "onesignal" tokens).
Proof.
  unfold sendViaOneSignal. destruct (negb _ || negb _); simpl;
    split; repeat constructor.
Qed.

Lemma sendViaFcm_events (env : Env) (gw : Gateways)
    (data : NotificationJobData) (tokens : list string) :
  Forall (fun e => event_tokens e = tokens) (snd (sendViaFcm env gw data tokens)) /\
  hd_error (snd (sendViaFcm env gw data tokens)) = Some (Entered "fcm" tokens).
Proof.
  unfold sendViaFcm. destruct (negb _); simpl; split; repeat constructor.
Qed.

Lemma sendViaOneSignal_provider (env : Env) (gw : Gateways)
    (data : NotificationJobData) (tokens : list string) (r : ProviderResult) :
  fst (sendViaOneSignal env gw data tokens) = inr r -> provider r = "onesignal".
Proof.
  unfold sendViaOneSignal. destruct (negb _ || negb _); simpl.
  - intros H. injection H as <-. reflexivity.
  - destruct (createNotification gw _ _); simpl; [discriminate |].
    intros H. injection H as <-. reflexivity.
Qed.

Lemma sendViaFcm_provider (env : Env) (gw : Gateways)
    (data : NotificationJobData) (tokens : list string) (r : ProviderResult) :
  fst (sendViaFcm env gw data tokens) = inr r -> provider r = "fcm".
Proof.
  unfold sendViaFcm. destruct (negb _); simpl.
  - intros H. injection H as <-. reflexivity.
  - destruct (fetch gw _) as [e | res]; simpl; [discriminate |].
    destruct (negb (res_ok res)); [discriminate |].
    intros H. injection H as <-. reflexivity.
Qed.

(** The run of the worker on a job that has tokens, in terms of the two
    provider functions. *)
Lemma process_with_tokens (db : Database) (env : Env) (gw : Gateways) (job : Job)
    (rows : list DeviceToken) :
  getDeviceTokensForUsers (connected db) (jd_recipientUserIds (job_data job))
    = inr rows ->
  rows <> [] ->
  let tokens := map dt_token rows in
  let os := sendViaOneSignal env gw (job_data job) tokens in
  let fcm := sendViaFcm env gw (job_data job) tokens in
  process (connected db) env gw job =
  match onesignal_outcome (fst os) with
  | inl thrown =>
      {| completion := inl thrown; run_results := []; run_events := snd os |}
  | inr first =>
      match fst fcm with
      | inr fcmResult =>
          {| completion := inr (Sent [first; fcmResult]);
             run_results := [first; fcmResult];
             run_events := (snd os ++ snd fcm)%list |}
      | inl err =>
          match caught_message err with
          | inr message =>
              {| completion := inl err;
                 run_results := [first; {| provider := "fcm"; success := false;
                                           reason := message |}];
                 run_events := (snd os ++ snd fcm)%list |}
          | inl thrown =>
              {| completion := inl thrown;
                 run_results := [first];
                 run_events := (snd os ++ snd fcm)%list |}
          end
      end
  end.
Proof.
  intros Hrows Hne. unfold process. rewrite Hrows.
  destruct rows as [| row rows]; [congruence |]. cbn [map List.length Nat.eqb].
  cbv zeta.
  destruct (sendViaOneSignal env gw (job_data job) _) as [[[n m c | s | |] | r] ev1];
    destruct (sendViaFcm env gw (job_data job) _)
      as [[[n' m' c' | s' | |] | r'] ev2]; reflexivity.
Qed.

Lemma onesignal_outcome_recorded (os : Await ProviderResult) :
  rejects_without_properties os = false ->
  (forall r, os = inr r -> provider r = "onesignal") ->
  exists first, onesignal_outcome os = inr first /\ provider first = "onesignal".
Proof.
  intros Hos Hname. destruct os as [[n m c | s | |] | r]; simpl in *;
    try discriminate; eauto.
Qed.

Lemma onesignal_outcome_thrown (os : Await ProviderResult) :
  rejects_without_properties os = true ->
  exists thrown, onesignal_outcome os = inl thrown.
Proof.
  destruct os as [[n m c | s | |] | r]; simpl; intros H; try discriminate; eauto.
Qed.

(** X9: whenever there is a token to deliver to, OneSignal is attempted
    first. If its call rejects with [null] or [undefined], reading the
    message in the catch block throws: the handler rejects, nothing is
    recorded and FCM is never entered. Otherwise FCM is attempted whatever
    the OneSignal attempt did, the result list starts with the outcome of
    "onesignal", and has exactly the two entries of "onesignal" then "fcm"
    unless FCM in turn rejects with [null] or [undefined]; a returned status
    "sent" carries that list of two. *)
Theorem worker_attempts_both_providers (db : Database) (env : Env) (gw : Gateways)
    (job : Job) (rows : list DeviceToken) :
  getDeviceTokensForUsers (connected db) (jd_recipientUserIds (job_data job))
    = inr rows ->
  rows <> [] ->
  let tokens := map dt_token rows in
  let os := fst (sendViaOneSignal env gw (job_data job) tokens) in
  let fcm := fst (sendViaFcm env gw (job_data job) tokens) in
  let r := process (connected db) env gw job in
  hd_error (run_events r) = Some (Entered "onesignal" tokens) /\
  (rejects_without_properties os = true ->
   marked_failed r = true /\ run_results r = [] /\
   forall e, In e (run_events r) -> event_provider e = "onesignal") /\
  (rejects_without_properties os = false ->
   In (Entered "fcm" tokens) (run_events r) /\
   (exists first,
      hd_error (run_results r) = Some first /\ provider first = "onesignal") /\
   (rejects_without_properties fcm = false ->
    exists first second,
      run_results r = [first; second] /\
      provider first = "onesignal" /\ provider second = "fcm") /\
   (forall results,
      completion r = inr (Sent results) ->
      results = run_results r /\ List.length results = 2%nat)).
Proof.
  intros Hrows Hne tokens os fcm r. subst r os fcm. unfold marked_failed.
  rewrite (process_with_tokens db env gw job rows Hrows Hne). cbv zeta.
  fold tokens.
  pose proof (sendViaOneSignal_events env gw (job_data job) tokens) as [_ Hos].
  pose proof (sendViaFcm_events env gw (job_data job) tokens) as [_ Hfcm].
  pose proof (sendViaOneSignal_provider env gw (job_data job) tokens) as Pos.
  pose proof (sendViaFcm_provider env gw (job_data job) tokens) as Pfcm.
  assert (Honly : forall e, In e (snd (sendViaOneSignal env gw (job_data job) tokens)) ->
                            event_provider e = "onesignal").
  { unfold sendViaOneSignal. destruct (negb _ || negb _); simpl;
      intros e He; intuition (subst; reflexivity). }
  assert (Hin : In (Entered "fcm" tokens)
                  (snd (sendViaOneSignal env gw (job_data job) tokens)
                   ++ snd (sendViaFcm env gw (job_data job) tokens))).
  { apply in_or_app. right.
    destruct (snd (sendViaFcm env gw (job_data job) tokens)); [discriminate |].
    injection Hfcm as ->. left. reflexivity. }
  assert (Hhd : hd_error
                  (snd (sendViaOneSignal env gw (job_data job) tokens)
                   ++ snd (sendViaFcm env gw (job_data job) tokens))
                = Some (Entered "onesignal" tokens)).
  { destruct (snd (sendViaOneSignal env gw (job_data job) tokens));
      [discriminate |]. exact Hos. }
  destruct (rejects_without_properties
              (fst (sendViaOneSignal env gw (job_data job) tokens))) eqn:Hnull.
  - destruct (onesignal_outcome_thrown _ Hnull) as [thrown ->]. simpl.
    split; [exact Hos |]. split; [intros _; auto | discriminate].
  - destruct (onesignal_outcome_recorded _ Hnull Pos) as [first [-> Hfirst]].
    destruct (fst (sendViaFcm env gw (job_data job) tokens))
      as [err | fcmResult] eqn:Efcm.
    + destruct (caught_message err) as [thrown | message] eqn:Ecm; simpl;
        (split; [exact Hhd |]); (split; [discriminate |]); intros _;
        (split; [exact Hin |]); (split; [eauto |]); split.
      * intros Hn. destruct err; simpl in *; discriminate.
      * intros results H. discriminate.
      * intros _. eexists _, _.
        split; [reflexivity | split; [exact Hfirst | reflexivity]].
      * intros results H. discriminate.
    + simpl. split; [exact Hhd |]. split; [discriminate |]. intros _.
      split; [exact Hin |]. split; [eauto |]. split.
      * intros _. eexists _, _.
        split; [reflexivity | split; [exact Hfirst | now apply Pfcm]].
      * intros results H. injection H as <-. split; reflexivity.
Qed.

Lemma worker_attempts_both_providers_witness :
  run_results (process (connected Fixture.school) Fixture.bothConfigured
                 Fixture.oneSignalDown Fixture.meetingJob)
  = [ {| provider := "onesignal"; success := false;
         reason := Some "connect ETIMEDOUT" |};
      {| provider := "fcm"; success := true; reason := None |} ] /\
  In (Entered "fcm" ["tok-g1"])
     (run_events (process (connected Fixture.school) Fixture.bothConfigured
                    Fixture.oneSignalDown Fixture.meetingJob)).
Proof.
  destruct (worker_attempts_both_providers Fixture.school Fixture.bothConfigured
              Fixture.oneSignalDown Fixture.meetingJob
              [ {| dt_userId := "g1"; dt_token := "tok-g1"; dt_platform := ANDROID;
                   dt_isActive := true; dt_lastUsedAt := Some 100%Z |} ])
    as [_ [_ Hrec]].
  - reflexivity.
  - discriminate.
  - destruct (Hrec eq_refl) as [Hin _]. split; [reflexivity | exact Hin].
Defined.

(** X10: every token the worker hands to a provider function or a gateway
    is the token of a stored row that is active and belongs to one of the
    job's recipients. *)
Theorem worker_targets_only_recipients_active_tokens (prisma : Prisma) (env : Env)
    (gw : Gateways) (job : Job) (e : Event) (token : string) :
  In e (run_events (process prisma env gw job)) ->
  In token (event_tokens e) ->
  exists row,
    In row (deviceTokens (tables prisma)) /\
    dt_token row = token /\ dt_isActive row = true /\
    In (dt_userId row) (jd_recipientUserIds (job_data job)).
Proof.
  unfold process.
  destruct (getDeviceTokensForUsers prisma (jd_recipientUserIds (job_data job)))
    as [err | rows] eqn:Hrows; [intros [] |].
  destruct (List.length (map dt_token rows) =? 0)%nat; [intros [] |].
  pose proof (sendViaOneSignal_events env gw (job_data job) (map dt_token rows))
    as [Hos _].
  pose proof (sendViaFcm_events env gw (job_data job) (map dt_token rows))
    as [Hfcm _].
  intros He Htok.
  assert (Hev : event_tokens e = map dt_token rows).
  { destruct (sendViaOneSignal env gw (job_data job) _)
      as [[[n m c | s | |] | r] ev1];
      destruct (sendViaFcm env gw (job_data job) _)
        as [[[n' m' c' | s' | |] | r'] ev2];
      simpl in *;
      try (apply in_app_or in He as [He | He]);
      first [ exact (proj1 (Forall_forall _ _) Hos e He)
            | exact (proj1 (Forall_forall _ _) Hfcm e He) ]. }
  rewrite Hev in Htok. apply in_map_iff in Htok as [row [Ht Hrow]].
  apply (getDeviceTokensForUsers_rows prisma _ rows Hrows) in Hrow.
  exists row. tauto.
Qed.

Lemma worker_targets_only_recipients_active_tokens_witness :
  exists row,
    In row (deviceTokens Fixture.school) /\
    dt_token row = "tok-g1" /\ dt_isActive row = true /\
    In (dt_userId row) (jd_recipientUserIds Fixture.meeting).
Proof.
  apply (worker_targets_only_recipients_active_tokens (connected Fixture.school)
           Fixture.bothConfigured Fixture.oneSignalDown Fixture.meetingJob
           (Requested "fcm" ["tok-g1"]) "tok-g1").
  - simpl. tauto.
  - left. reflexivity.
Defined.

(** X11: a provider that is not configured is skipped without a request to
    its gateway and without failing the job: with no OneSignal credentials
    and no FCM server key the job returns "sent" with two "Not configured"
    outcomes. *)
Theorem unconfigured_providers_are_skipped (db : Database) (env : Env)
    (gw : Gateways) (job : Job) (rows : list DeviceToken) :
  getDeviceTokensForUsers (connected db) (jd_recipientUserIds (job_data job))
    = inr rows ->
  rows <> [] ->
  oneSignalAppId env = "" \/ oneSignalRestApiKey env = "" ->
  fcmServerKey env = "" ->
  let skipped name :=
    {| provider := name; success := false; reason := Some "Not configured" |} in
  process (connected db) env gw job
  = {| completion := inr (Sent [skipped "onesignal"; skipped "fcm"]);
       run_results := [skipped "onesignal"; skipped "fcm"];
       run_events := [Entered "onesignal" (map dt_token rows);
                      Entered "fcm" (map dt_token rows)] |}.
Proof.
  intros Hrows Hne Hos Hfcm.
  rewrite (process_with_tokens db env gw job rows Hrows Hne). cbv zeta.
  unfold sendViaOneSignal, sendViaFcm, getOneSignalConfig, getFcmConfig. simpl.
  rewrite Hfcm. simpl.
  destruct Hos as [-> | ->]; simpl; rewrite ?orb_true_r; reflexivity.
Qed.

Lemma sendViaFcm_error_status (env : Env) (gw : Gateways)
    (data : NotificationJobData) (tokens : list string) (res : HttpResponse) :
  fcmServerKey env <> "" ->
  (forall request, fetch gw request = inr res) ->
  res_ok res = false ->
  sendViaFcm env gw data tokens
  = (inl (FError "Error"
            ("FCM send failed: " ++ Js.of_N (res_status res) ++ " " ++ res_text res)
            None),
     [Entered "fcm" tokens; Requested "fcm" tokens]).
Proof.
  intros Hkey Hfetch Hok. unfold sendViaFcm, getFcmConfig. simpl.
  apply String.eqb_neq in Hkey. unfold Js.truthy. rewrite Hkey. simpl.
  rewrite Hfetch. simpl. rewrite Hok. reflexivity.
Qed.

(** X12: when FCM is configured and its gateway answers with a status that
    is not ok, the job is marked failed. Unless the OneSignal call rejected
    with [null] or [undefined] (the handler then rejects before FCM is
    tried), the request to FCM was sent and the handler rejects with the
    reason "FCM send failed: <status> <text>". *)
Theorem fcm_error_status_fails_job (db : Database) (env : Env) (gw : Gateways)
    (job : Job) (rows : list DeviceToken) (res : HttpResponse) :
  getDeviceTokensForUsers (connected db) (jd_recipientUserIds (job_data job))
    = inr rows ->
  rows <> [] ->
  fcmServerKey env <> "" ->
  (forall request, fetch gw request = inr res) ->
  res_ok res = false ->
  let r := process (connected db) env gw job in
  marked_failed r = true /\
  (rejects_without_properties
     (fst (sendViaOneSignal env gw (job_data job) (map dt_token rows))) = false ->
   completion r
   = inl (FError "Error"
            ("FCM send failed: " ++ Js.of_N (res_status res) ++ " " ++ res_text res)
            None) /\
   In (Requested "fcm" (map dt_token rows)) (run_events r)).
Proof.
  intros Hrows Hne Hkey Hfetch Hok r. unfold r, marked_failed.
  rewrite (process_with_tokens db env gw job rows Hrows Hne). cbv zeta.
  rewrite (sendViaFcm_error_status env gw (job_data job) (map dt_token rows) res
             Hkey Hfetch Hok).
  destruct (fst (sendViaOneSignal env gw (job_data job) (map dt_token rows)))
    as [[n m c | s | |] | osResult]; simpl;
    (split; [reflexivity |]); intros H; try discriminate H;
    (split; [reflexivity |]); apply in_or_app; right; simpl; tauto.
Qed.

Lemma unconfigured_providers_are_skipped_witness :
  completion (process (connected Fixture.school) Sample.unconfigured
                Fixture.oneSignalDown Fixture.meetingJob)
  = inr (Sent [ {| provider := "onesignal"; success := false;
                   reason := Some "Not configured" |};
                {| provider := "fcm"; success := false;
                   reason := Some "Not configured" |} ]) /\
  filter is_request
    (run_events (process (connected Fixture.school) Sample.unconfigured
                   Fixture.oneSignalDown Fixture.meetingJob)) = [].
Proof.
  rewrite (unconfigured_providers_are_skipped Fixture.school Sample.unconfigured
             Fixture.oneSignalDown Fixture.meetingJob
             [ {| dt_userId := "g1"; dt_token := "tok-g1"; dt_platform := ANDROID;
                  dt_isActive := true; dt_lastUsedAt := Some 100%Z |} ]).
  - split; reflexivity.
  - reflexivity.
  - discriminate.
  - left. reflexivity.
  - reflexivity.
Defined.

Lemma fcm_error_status_fails_job_witness :
  completion (process (connected Fixture.school) Fixture.bothConfigured
                Sample.fcmRejecting Fixture.meetingJob)
  = inl (FError "Error" "FCM send failed: 503 unavailable" None).
Proof.
  destruct (fcm_error_status_fails_job Fixture.school Fixture.bothConfigured
              Sample.fcmRejecting Fixture.meetingJob
              [ {| dt_userId := "g1"; dt_token := "tok-g1"; dt_platform := ANDROID;
                   dt_isActive := true; dt_lastUsedAt := Some 100%Z |} ]
              {| res_ok := false; res_status := 503%N; res_text := "unavailable" |})
    as [_ H].
  - reflexivity.
  - discriminate.
  - discriminate.
  - reflexivity.
  - reflexivity.
  - exact (proj1 (H eq_refl)).
Defined.

(** X13: for a job with a token to deliver to, the handler rejects (the
    job is marked failed) exactly when the FCM call rejects, or the
    OneSignal call rejects with [null] or [undefined]; a OneSignal rejection
    with any other value does not fail the job. *)
Theorem process_fails_iff (db : Database) (env : Env) (gw : Gateways)
    (job : Job) (rows : list DeviceToken) :
  getDeviceTokensForUsers (connected db) (jd_recipientUserIds (job_data job))
    = inr rows ->
  rows <> [] ->
  marked_failed (process (connected db) env gw job) = true <->
  rejects_without_properties
    (fst (sendViaOneSignal env gw (job_data job) (map dt_token rows))) = true \/
  exists e, fst (sendViaFcm env gw (job_data job) (map dt_token rows)) = inl e.
Proof.
  intros Hrows Hne. unfold marked_failed.
  rewrite (process_with_tokens db env gw job rows Hrows Hne). cbv zeta.
  destruct (fst (sendViaOneSignal env gw (job_data job) (map dt_token rows)))
    as [[n m c | s | |] | osResult]; simpl;
    try (split; [intros _; left; reflexivity | reflexivity]);
    destruct (fst (sendViaFcm env gw (job_data job) (map dt_token rows)))
      as [[n' m' c' | s' | |] | fcmResult]; simpl;
    (split; [intros H; try discriminate H; right; eauto
            | intros [H | [e H]]; try discriminate H; reflexivity]).
Qed.

Lemma process_fails_iff_witness :
  marked_failed (process (connected Fixture.school) Fixture.bothConfigured
                   Sample.oneSignalNull Fixture.meetingJob) = true /\
  marked_failed (process (connected Fixture.school) Fixture.bothConfigured
                   Fixture.oneSignalDown Fixture.meetingJob) = false.
Proof.
  pose (rows := [ {| dt_userId := "g1"; dt_token := "tok-g1"; dt_platform := ANDROID;
                     dt_isActive := true; dt_lastUsedAt := Some 100%Z |} ]).
  split.
  - apply (process_fails_iff Fixture.school Fixture.bothConfigured
             Sample.oneSignalNull Fixture.meetingJob rows);
      [reflexivity | discriminate | left; reflexivity].
  - destruct (marked_failed _) eqn:E; [| reflexivity].
    apply (process_fails_iff Fixture.school Fixture.bothConfigured
             Fixture.oneSignalDown Fixture.meetingJob rows) in E;
      [| reflexivity | discriminate].
    destruct E as [E | [e E]]; discriminate.
Defined.

(** ** Queue connection *)

(** X14: on the n-th reconnection attempt (n >= 1) the strategy stops
    exactly when n > 3; before that it waits 100 * n milliseconds, at most
    300: the cap of 1000 is never reached. *)
Theorem retryStrategy_bounded (times : Z) :
  (1 <= times)%Z ->
  (retryStrategy times = None <-> (3 < times)%Z) /\
  (forall delay, retryStrategy times = Some delay ->
                 delay = (100 * times)%Z /\ (100 <= delay <= 300)%Z).
Proof.
  intros Ht. unfold retryStrategy. destruct (Z.gtb_spec times 3) as [Hgt | Hle].
  - split; [split; [lia | reflexivity] | discriminate].
  - split; [split; [discriminate | lia] |].
    intros delay H. injection H as <-. lia.
Qed.

Lemma retryStrategy_bounded_witness :
  retryStrategy 3 = Some 300%Z /\ retryStrategy 4 = None.
Proof.
  destruct (retryStrategy_bounded 3) as [_ H3]; [lia |].
  destruct (retryStrategy_bounded 4) as [[_ H4] _]; [lia |].
  split; [reflexivity | apply H4; lia].
Defined.

(** ** Request schemas *)

(** X15: a query accepted by [listNotificationsSchema] makes the listing ask
    for between 1 and 100 jobs: 50 when no limit is given, otherwise the
    number [parseInt] reads from the given text. *)
Theorem accepted_limit_in_range (rawLimit : option string)
    (query : ListNotificationsQuery) :
  listNotificationsSchema rawLimit = Some query ->
  (1 <= effective_limit query <= 100)%Z /\
  (rawLimit = None -> effective_limit query = 50%Z) /\
  (forall val, rawLimit = Some val ->
               ParseInt.parseInt val = Some (effective_limit query)).
Proof.
  unfold listNotificationsSchema. destruct rawLimit as [val |].
  - destruct (ParseInt.parseInt val) as [n |] eqn:Hparse; [| discriminate].
    destruct ((1 <=? n)%Z && (n <=? 100)%Z) eqn:Hrange; [| discriminate].
    apply andb_true_iff in Hrange as [H1 H2].
    apply Z.leb_le in H1. apply Z.leb_le in H2.
    intros H. injection H as <-. unfold effective_limit. simpl.
    destruct (Z.eqb_spec n 0); [lia |].
    split; [lia |]. split; [discriminate |].
    intros val' H. injection H as <-. exact Hparse.
  - intros H. injection H as <-. unfold effective_limit. simpl.
    split; [lia |]. split; [reflexivity | discriminate].
Qed.

Lemma accepted_limit_in_range_witness :
  listNotificationsSchema (Some "  25") = Some {| limit := Some 25%Z |} /\
  effective_limit {| limit := Some 25%Z |} = 25%Z.
Proof.
  split; [reflexivity |].
  destruct (accepted_limit_in_range (Some "  25") {| limit := Some 25%Z |} eq_refl)
    as [_ [_ H]].
  specialize (H "  25" eq_refl). vm_compute in H. reflexivity.
Defined.

Lemma digit_is_plain (c : ascii) (d : Z) :
  ParseInt.digit c = Some d ->
  ParseInt.is_space c = false /\ c <> "-"%char /\ c <> "+"%char.
Proof.
  destruct c as [[] [] [] [] [] [] [] []]; vm_compute; intros H;
    try discriminate; repeat split; discriminate.
Qed.

Lemma trim_start_digit (c : ascii) (d : Z) (rest : string) :
  ParseInt.digit c = Some d ->
  ParseInt.trim_start (String c rest) = String c rest.
Proof.
  intros Hd.
  destruct c as [[] [] [] [] [] [] [] []]; vm_compute in Hd; try discriminate Hd;
    destruct rest as [| b [| c' rest3]]; reflexivity.
Qed.

Lemma digits_ignore_rest (s t : string) : forall acc,
  all_digits s = true -> no_digit_ahead t = true ->
  ParseInt.digits (s ++ t) acc = ParseInt.digits s acc.
Proof.
  induction s as [| c s IH]; intros acc Hs Ht; simpl in *.
  - destruct t as [| c t]; simpl in *; [reflexivity |].
    destruct (ParseInt.digit c); [discriminate | reflexivity].
  - destruct (ParseInt.digit c); [| discriminate]. now apply IH.
Qed.

(** X16: [parseInt] stops at the first character that is not a digit, so
    the schema treats a limit that goes on with other text after its digits
    as the limit given by the digits alone. *)
Theorem limit_ignores_trailing_text (s t : string) :
  s <> "" -> all_digits s = true -> no_digit_ahead t = true ->
  listNotificationsSchema (Some (s ++ t)) = listNotificationsSchema (Some s).
Proof.
  intros Hne Hs Ht.
  assert (E : ParseInt.parseInt (s ++ t) = ParseInt.parseInt s).
  { destruct s as [| c s]; [congruence |].
    simpl in Hs. destruct (ParseInt.digit c) as [d |] eqn:Hd; [| discriminate].
    destruct (digit_is_plain c d Hd) as [_ [Hm Hp]].
    unfold ParseInt.parseInt.
    change (String c s ++ t) with (String c (s ++ t)).
    rewrite !(trim_start_digit c d _ Hd).
    assert (Hsign : forall rest,
              match String c rest with
              | String "-" r => ((-1)%Z, r)
              | String "+" r => (1%Z, r)
              | _ => (1%Z, String c rest)
              end = (1%Z, String c rest)).
    { intros rest.
      destruct c as [[] [] [] [] [] [] [] []]; try reflexivity; congruence. }
    rewrite !Hsign. simpl. rewrite Hd.
    rewrite (digits_ignore_rest s t (Some d) Hs Ht). reflexivity. }
  unfold listNotificationsSchema. rewrite E. reflexivity.
Qed.

Lemma limit_ignores_trailing_text_witness :
  listNotificationsSchema (Some "25abc") = Some {| limit := Some 25%Z |}.
Proof.
  change (listNotificationsSchema (Some ("25" ++ "abc"))
          = listNotificationsSchema (Some "25")).
  apply (limit_ignores_trailing_text "25" "abc");
    [discriminate | reflexivity | reflexivity].
Defined.

(** ** Routes *)

Lemma substring_all (s : string) : String.substring 0 (String.length s) s = s.
Proof. induction s as [| c s IH]; simpl; [reflexivity | now rewrite IH]. Qed.

(** A verified bearer token lets the request through, with the token's
    payload as its user. *)
Lemma authenticate_bearer {B : Type} (lib : Library) (secret token : string)
    (input : B) (user : JWTPayload) :
  secret <> "" ->
  jwt_verify lib token secret = Some user ->
  authenticate lib secret (bearing token input)
  = Next {| req_authorization := Some ("Bearer " ++ token);
            req_input := input;
            req_user := Some user |}.
Proof.
  intros Hsecret Hverify. unfold authenticate, bearing, verifyAccessToken. simpl.
  rewrite Nat.sub_0_r, substring_all.
  apply String.eqb_neq in Hsecret. unfold Js.truthy. rewrite Hsecret. simpl.
  rewrite Hverify. destruct token; reflexivity.
Qed.

Lemma sendError_is_error_reply (lib : Library) (error : ErrorArg)
    (statusCode : option N) :
  error_reply (sendError lib error statusCode).
Proof.
  unfold error_reply, sendError. destruct error; simpl; eauto.
Qed.

Lemma errorHandler_is_error_reply (lib : Library) (err : Raised) :
  error_reply (errorHandler lib err).
Proof.
  unfold errorHandler. destruct err; apply sendError_is_error_reply.
Qed.

Lemma authenticate_replies_error {B : Type} (lib : Library) (secret : string)
    (req : Request B) (r : Reply) :
  authenticate lib secret req = Replied r -> error_reply r.
Proof.
  unfold authenticate.
  destruct (req_authorization req) as [h |].
  - destruct (negb (Js.truthy h) || negb (String.prefix "Bearer " h)).
    + intros H. injection H as <-. apply sendError_is_error_reply.
    + destruct (verifyAccessToken lib secret _); [| discriminate].
      intros H. injection H as <-. apply sendError_is_error_reply.
  - intros H. injection H as <-. apply sendError_is_error_reply.
Qed.

Lemma authorize_replies_error {B : Type} (lib : Library) (allowed : list string)
    (req : Request B) (r : Reply) :
  authorize lib allowed req = Replied r -> error_reply r.
Proof.
  unfold authorize. destruct (req_user req) as [user |].
  - destruct (negb (Js.array_includes allowed (jwt_role user))); [| discriminate].
    intros H. injection H as <-. apply sendError_is_error_reply.
  - intros H. injection H as <-. apply sendError_is_error_reply.
Qed.

(** X17: on the send route a caller whose token verifies but whose role is
    not SCHOOL_ADMIN is answered by the authorization middleware with the
    forbidden error "Access denied. Required roles: SCHOOL_ADMIN"; the body,
    the database and the queue play no part. *)
Theorem send_route_requires_admin (lib : Library) (secret token : string)
    (prisma : Prisma) (queue : Queue) (body : SendNotificationInput)
    (user : JWTPayload) :
  secret <> "" ->
  jwt_verify lib token secret = Some user ->
  jwt_role user <> "SCHOOL_ADMIN" ->
  route_send lib secret prisma queue (bearing token body)
  = {| reply_status := statusCodeOf lib ForbiddenError;
       reply_json :=
         {| api_success := false;
            api_data := None;
            api_message := None;
            api_error := Some "Access denied. Required roles: SCHOOL_ADMIN" |} |}.
Proof.
  intros Hsecret Hverify Hrole. unfold route_send.
  rewrite (authenticate_bearer lib secret token body user Hsecret Hverify).
  unfold authorize. simpl. apply String.eqb_neq in Hrole. rewrite Hrole. reflexivity.
Qed.

Lemma send_route_requires_admin_witness :
  route_send Sample.lib "secret" (connected Fixture.school) Fixture.historyQueue
    (Sample.asParent Fixture.toParents)
  = {| reply_status := 403%N;
       reply_json :=
         {| api_success := false;
            api_data := None;
            api_message := None;
            api_error := Some "Access denied. Required roles: SCHOOL_ADMIN" |} |}.
Proof.
  apply (send_route_requires_admin Sample.lib "secret" "P" (connected Fixture.school)
           Fixture.historyQueue Fixture.toParents Sample.parent).
  - discriminate.
  - reflexivity.
  - discriminate.
Defined.

(** X18: an administrator whose request passes validation and whose filter
    resolves to at least one recipient is answered with status 202 and the
    message "Notification queued" whatever the queue does, also when it
    rejects the job; the data carry the number of recipients. *)
Theorem send_route_answers_202_whatever_the_queue (lib : Library)
    (secret token : string) (db : Database) (queue : Queue)
    (body : SendNotificationInput) (user : JWTPayload) (ids : list string) :
  secret <> "" ->
  jwt_verify lib token secret = Some user ->
  jwt_role user = "SCHOOL_ADMIN" ->
  sendNotificationSchema_success (isUuid lib) body = true ->
  resolveRecipientUserIds (connected db) body = inr ids ->
  ids <> [] ->
  exists result,
    route_send lib secret (connected db) queue (bearing token body)
    = success_reply 202 "Notification queued" (NotificationQueued result) /\
    recipientCount result = List.length ids.
Proof.
  intros Hsecret Hverify Hrole Hvalid Hres Hne. unfold route_send.
  rewrite (authenticate_bearer lib secret token body user Hsecret Hverify).
  unfold authorize. simpl. rewrite Hrole. simpl.
  unfold sendNotificationController. simpl. rewrite Hvalid. simpl.
  rewrite (enqueue_after_resolution (connected db) queue body (jwt_userId user)
             ids Hres Hne).
  destruct (add queue _); simpl; eexists; split; reflexivity.
Qed.

Lemma send_route_answers_202_whatever_the_queue_witness :
  exists result,
    route_send Sample.lib "secret" (connected Fixture.school) Fixture.downQueue
      (Sample.asAdmin Fixture.toParents)
    = success_reply 202 "Notification queued" (NotificationQueued result) /\
    recipientCount result = 2%nat.
Proof.
  apply (send_route_answers_202_whatever_the_queue Sample.lib "secret" "A"
           Fixture.school Fixture.downQueue Fixture.toParents Sample.admin
           ["g1"; "g2"]).
  - discriminate.
  - reflexivity.
  - reflexivity.
  - reflexivity.
  - reflexivity.
  - discriminate.
Defined.

(** X19: the list route has no degraded mode: when the queue rejects the
    read with an error object, an authenticated caller with a valid query
    is answered with status 500 and that error's message. *)
Theorem list_route_fails_with_the_queue (lib : Library) (secret token : string)
    (queue : Queue) (rawLimit : option string) (query : ListNotificationsQuery)
    (user : JWTPayload) (name message : string) (code : option string) :
  secret <> "" ->
  jwt_verify lib token secret = Some user ->
  listNotificationsSchema rawLimit = Some query ->
  getJobs queue [completed; failed] 0%Z (effective_limit query - 1)%Z false
    = inl (FError name message code) ->
  route_list lib secret queue (bearing token rawLimit)
  = {| reply_status := 500%N;
       reply_json :=
         {| api_success := false;
            api_data := None;
            api_message := None;
            api_error := Some message |} |}.
Proof.
  intros Hsecret Hverify Hschema Hjobs. unfold route_list.
  rewrite (authenticate_bearer lib secret token rawLimit user Hsecret Hverify).
  unfold listNotificationsController. simpl. rewrite Hschema.
  unfold listNotifications. rewrite Hjobs. reflexivity.
Qed.

Lemma list_route_fails_with_the_queue_witness :
  route_list Sample.lib "secret" Fixture.downQueue (Sample.asAdmin None)
  = {| reply_status := 500%N;
       reply_json :=
         {| api_success := false;
            api_data := None;
            api_message := None;
            api_error := Some "connect ECONNREFUSED 127.0.0.1:6379" |} |}.
Proof.
  apply (list_route_fails_with_the_queue Sample.lib "secret" "A" Fixture.downQueue
           None {| limit := None |} Sample.admin "Error" _ (Some "ECONNREFUSED")).
  - discriminate.
  - reflexivity.
  - reflexivity.
  - reflexivity.
Defined.

(** X20: on the device route a caller registering a token under another
    user's id is answered with the conflict error, and the database is left
    as it was. *)
Theorem device_route_rejects_other_user (lib : Library) (secret token : string)
    (lastUsedAt_default : Z -> option Z) (prisma : Prisma) (now : Z)
    (raw : RawRegisterDevice) (body : RegisterDeviceInput) (user : JWTPayload) :
  secret <> "" ->
  jwt_verify lib token secret = Some user ->
  registerDeviceSchema (isUuid lib) raw = inr body ->
  raw_userId raw <> jwt_userId user ->
  route_device lib secret lastUsedAt_default prisma now (bearing token raw)
  = ({| reply_status := statusCodeOf lib (ServiceError ConflictError);
        reply_json :=
          {| api_success := false;
             api_data := None;
             api_message := None;
             api_error := Some "User ID does not match authenticated user" |} |},
     prisma).
Proof.
  intros Hsecret Hverify Hschema Hother. unfold route_device.
  rewrite (authenticate_bearer lib secret token raw user Hsecret Hverify).
  unfold registerDeviceController. simpl. rewrite Hschema.
  assert (Hid : rd_userId body = raw_userId raw).
  { unfold registerDeviceSchema in Hschema.
    destruct (_ ++ _)%list; [| discriminate].
    destruct (platform_of (raw_platform raw)); [| discriminate].
    injection Hschema as <-. reflexivity. }
  unfold registerDevice. rewrite Hid.
  apply String.eqb_neq in Hother. rewrite Hother. reflexivity.
Qed.

Lemma device_route_rejects_other_user_witness :
  route_device Sample.lib "secret" (fun t => Some t) (connected Fixture.school)
    200%Z (Sample.asParent Sample.someoneElse)
  = ({| reply_status := 409%N;
        reply_json :=
          {| api_success := false;
             api_data := None;
             api_message := None;
             api_error := Some "User ID does not match authenticated user" |} |},
     connected Fixture.school).
Proof.
  apply (device_route_rejects_other_user Sample.lib "secret" "P" (fun t => Some t)
           (connected Fixture.school) 200%Z Sample.someoneElse
           {| rd_userId := "g2"; rd_deviceToken := "tok-x"; rd_platform := IOS |}
           Sample.parent).
  - discriminate.
  - reflexivity.
  - reflexivity.
  - discriminate.
Defined.

Lemma authenticate_without_bearer {B : Type} (lib : Library) (secret : string)
    (req : Request B) :
  match req_authorization req with
  | Some header => String.prefix "Bearer " header = false
  | None => True
  end ->
  authenticate lib secret req
  = Replied {| reply_status := statusCodeOf lib UnauthorizedError;
               reply_json :=
                 {| api_success := false;
                    api_data := None;
                    api_message := None;
                    api_error := Some "No token provided" |} |}.
Proof.
  unfold authenticate. destruct (req_authorization req) as [h |].
  - intros ->. rewrite orb_true_r. reflexivity.
  - reflexivity.
Qed.

(** X21: a request without an Authorization header, or with one that does
    not start with "Bearer ", is answered by every route with the
    unauthorized error "No token provided"; no controller runs, and the
    device route leaves the database as it was. *)
Theorem routes_reject_missing_token (lib : Library) (secret : string)
    (header : option string) :
  match header with
  | Some h => String.prefix "Bearer " h = false
  | None => True
  end ->
  forall denied,
    denied = {| reply_status := statusCodeOf lib UnauthorizedError;
                reply_json :=
                  {| api_success := false;
                     api_data := None;
                     api_message := None;
                     api_error := Some "No token provided" |} |} ->
    (forall prisma queue body user,
       route_send lib secret prisma queue
         {| req_authorization := header; req_input := body; req_user := user |}
       = denied) /\
    (forall queue rawLimit user,
       route_list lib secret queue
         {| req_authorization := header; req_input := rawLimit; req_user := user |}
       = denied) /\
    (forall lastUsedAt_default prisma now raw user,
       route_device lib secret lastUsedAt_default prisma now
         {| req_authorization := header; req_input := raw; req_user := user |}
       = (denied, prisma)).
Proof.
  intros Hheader denied ->. repeat split; intros;
    unfold route_send, route_list, route_device;
    rewrite authenticate_without_bearer by exact Hheader; reflexivity.
Qed.

Lemma routes_reject_missing_token_witness :
  route_send Sample.lib "secret" (connected Fixture.school) Fixture.historyQueue
    (Sample.anonymous Fixture.toParents)
  = {| reply_status := 401%N;
       reply_json :=
         {| api_success := false;
            api_data := None;
            api_message := None;
            api_error := Some "No token provided" |} |}.
Proof.
  destruct (routes_reject_missing_token Sample.lib "secret" None I _ eq_refl)
    as [Hsend _].
  apply (Hsend (connected Fixture.school) Fixture.historyQueue Fixture.toParents None).
Defined.

Lemma passed_on_is_error_reply (lib : Library) (err : Raised) :
  error_reply (finish lib (PassedOn err)).
Proof.
  unfold finish. destruct (passes_for_no_error err).
  - unfold error_reply, notFoundHandler. simpl. eauto.
  - apply errorHandler_is_error_reply.
Qed.

(** X22: every reply of the three routes is either an error reply (no
    data, a message under [error]) or the success reply of its route:
    status 202 "Notification queued", 200 "Notifications retrieved", or 201
    "Device registered successfully", with the data. *)
Theorem route_replies_are_well_formed (lib : Library) (secret : string) :
  (forall prisma queue req,
     error_reply (route_send lib secret prisma queue req) \/
     exists result,
       route_send lib secret prisma queue req
       = success_reply 202 "Notification queued" (NotificationQueued result)) /\
  (forall queue req,
     error_reply (route_list lib secret queue req) \/
     exists items,
       route_list lib secret queue req
       = success_reply 200 "Notifications retrieved" (NotificationList items)) /\
  (forall lastUsedAt_default prisma now req,
     error_reply (fst (route_device lib secret lastUsedAt_default prisma now req)) \/
     exists row,
       fst (route_device lib secret lastUsedAt_default prisma now req)
       = success_reply 201 "Device registered successfully" (DeviceRegistered row)).
Proof.
  split; [| split].
  - intros prisma queue req. unfold route_send.
    destruct (authenticate lib secret req) as [req1 | r] eqn:Ha;
      [| left; exact (authenticate_replies_error lib secret req r Ha)].
    destruct (authorize lib ["SCHOOL_ADMIN"] req1) as [req2 | r] eqn:Hz;
      [| left; exact (authorize_replies_error lib _ req1 r Hz)].
    unfold sendNotificationController.
    destruct (negb _); [left; apply passed_on_is_error_reply |].
    destruct (req_user req2); [| left; apply passed_on_is_error_reply].
    destruct (enqueueNotification _ _ _ _);
      [right; eexists; reflexivity | left; apply passed_on_is_error_reply].
  - intros queue req. unfold route_list.
    destruct (authenticate lib secret req) as [req1 | r] eqn:Ha;
      [| left; exact (authenticate_replies_error lib secret req r Ha)].
    unfold listNotificationsController.
    destruct (listNotificationsSchema _); [| left; apply passed_on_is_error_reply].
    destruct (req_user req1); [| left; apply passed_on_is_error_reply].
    destruct (listNotifications _ _ _ _);
      [right; eexists; reflexivity | left; apply passed_on_is_error_reply].
  - intros dflt prisma now req. unfold route_device.
    destruct (authenticate lib secret req) as [req1 | r] eqn:Ha;
      [| left; exact (authenticate_replies_error lib secret req r Ha)].
    unfold registerDeviceController.
    destruct (registerDeviceSchema _ _);
      [left; apply passed_on_is_error_reply |].
    destruct (req_user req1); [| left; apply passed_on_is_error_reply].
    destruct (registerDevice _ _ _ _ _) as [[row | t] prisma'];
      [right; eexists; reflexivity | left; apply passed_on_is_error_reply].
Qed.

(** ** Attendance *)

(** The rows kept by a lookup still have pairwise different ids. *)
Lemma kept_ids_unique (keep : Attendance.StudentRow -> bool)
    (rows : list Attendance.StudentRow) :
  NoDup (map Attendance.sr_id rows) ->
  NoDup (map Attendance.sr_id (filter keep rows)).
Proof.
  induction rows as [| row rows IH]; simpl; intros Hids; [constructor |].
  apply NoDup_cons_iff in Hids as [Hfresh Hrest].
  destruct (keep row); simpl; [| exact (IH Hrest)].
  apply NoDup_cons; [| exact (IH Hrest)].
  intros Hin. apply Hfresh.
  apply in_map_iff in Hin as [other [Hid Hkept]].
  apply filter_In in Hkept as [Hstored _].
  rewrite <- Hid. now apply in_map.
Qed.

Section ValidateStudents.

Variables (db : Attendance.Students) (studentIds : list string)
          (classId schoolId : string).

Lemma found_ids_In (id : string) :
  In id (map Attendance.sr_id (students_found db studentIds classId schoolId)) <->
  In id studentIds /\ Attendance.enrolled db classId schoolId id.
Proof.
  unfold students_found, Attendance.enrolled. rewrite in_map_iff. split.
  - intros [s [Hid Hin]]. apply filter_In in Hin as [Hin Hsel].
    apply andb_true_iff in Hsel as [Hsel Hschool].
    apply andb_true_iff in Hsel as [Hlisted Hclass].
    apply array_includes_In in Hlisted. apply String.eqb_eq in Hclass, Hschool.
    subst id. split; [assumption |]. exists s. auto.
  - intros [Hlisted [s [Hin [Hid [Hclass Hschool]]]]]. exists s.
    split; [assumption |]. apply filter_In. split; [assumption |].
    rewrite Hid, Hclass, Hschool, !String.eqb_refl, !andb_true_r.
    now apply array_includes_In.
Qed.

Lemma validate_unfolded :
  Attendance.st_fault db = None ->
  Attendance.validateStudentsInClass db studentIds classId schoolId =
  if (List.length (students_found db studentIds classId schoolId)
      =? List.length studentIds)%nat
  then inr tt
  else inl (RaisedApp ValidationError
              ("Students not found in class: "
               ++ String.concat ", "
                    (filter
                       (fun id =>
                          negb (Js.array_includes
                                  (map Attendance.sr_id
                                     (students_found db studentIds classId schoolId))
                                  id))
                       studentIds))).
Proof.
  intros Hf. unfold Attendance.validateStudentsInClass. rewrite Hf.
  fold (students_found db studentIds classId schoolId).
  destruct (List.length (students_found db studentIds classId schoolId)
            =? List.length studentIds)%nat; reflexivity.
Qed.

Hypothesis primary_key : NoDup (map Attendance.sr_id (Attendance.st_rows db)).

Lemma found_all_iff :
  List.length (students_found db studentIds classId schoolId)
  = List.length studentIds <->
  NoDup studentIds /\
  forall id, In id studentIds -> Attendance.enrolled db classId schoolId id.
Proof.
  assert (Hnd : NoDup (map Attendance.sr_id
                         (students_found db studentIds classId schoolId))).
  { unfold students_found. now apply kept_ids_unique. }
  assert (Hincl : incl (map Attendance.sr_id
                          (students_found db studentIds classId schoolId))
                       studentIds).
  { intros id Hin. apply found_ids_In in Hin. tauto. }
  split.
  - intros Hlen.
    assert (Hle : (List.length studentIds
                   <= List.length
                        (map Attendance.sr_id
                           (students_found db studentIds classId schoolId)))%nat).
    { rewrite length_map. lia. }
    split.
    + exact (@NoDup_incl_NoDup _ _ _ Hnd Hle Hincl).
    + intros id Hin.
      pose proof (@NoDup_length_incl _ _ _ Hnd Hle Hincl) as Hback.
      apply Hback in Hin. apply found_ids_In in Hin. tauto.
  - intros [Hids Hall].
    assert (Hback : incl studentIds
                         (map Attendance.sr_id
                            (students_found db studentIds classId schoolId))).
    { intros id Hin. apply found_ids_In. auto. }
    pose proof (@NoDup_incl_length _ _ _ Hnd Hincl) as H1.
    pose proof (@NoDup_incl_length _ _ _ Hids Hback) as H2.
    rewrite length_map in H1, H2. lia.
Qed.

End ValidateStudents.

(** X23: with the student ids unique in the table and the database
    reachable, [validateStudentsInClass] returns exactly when the requested
    ids are pairwise different and each is a student of the class in the
    school. *)
Theorem validateStudentsInClass_accepts_iff (db : Attendance.Students)
    (studentIds : list string) (classId schoolId : string) :
  NoDup (map Attendance.sr_id (Attendance.st_rows db)) ->
  Attendance.st_fault db = None ->
  Attendance.validateStudentsInClass db studentIds classId schoolId = inr tt <->
  NoDup studentIds /\
  forall id, In id studentIds -> Attendance.enrolled db classId schoolId id.
Proof.
  intros Hpk Hf. rewrite (validate_unfolded db studentIds classId schoolId Hf).
  rewrite <- (found_all_iff db studentIds classId schoolId Hpk).
  destruct (Nat.eqb_spec
              (List.length (students_found db studentIds classId schoolId))
              (List.length studentIds)) as [E | E].
  - tauto.
  - split; [discriminate | intros H; contradiction].
Qed.

(** X24: a request that lists a student of the class twice is rejected
    although nobody is missing: when every requested id is a student of the
    class but the ids are not pairwise different, the validation error is
    "Students not found in class: " followed by no name. *)
Theorem validateStudentsInClass_rejects_duplicates (db : Attendance.Students)
    (studentIds : list string) (classId schoolId : string) :
  NoDup (map Attendance.sr_id (Attendance.st_rows db)) ->
  Attendance.st_fault db = None ->
  (forall id, In id studentIds -> Attendance.enrolled db classId schoolId id) ->
  ~ NoDup studentIds ->
  Attendance.validateStudentsInClass db studentIds classId schoolId
  = inl (RaisedApp ValidationError "Students not found in class: ").
Proof.
  intros Hpk Hf Hall Hdup.
  rewrite (validate_unfolded db studentIds classId schoolId Hf).
  destruct (Nat.eqb_spec
              (List.length (students_found db studentIds classId schoolId))
              (List.length studentIds)) as [E | E].
  - apply (found_all_iff db studentIds classId schoolId Hpk) in E. tauto.
  - rewrite filter_none; [reflexivity |].
    intros id Hin. apply negb_false_iff. apply array_includes_In.
    apply (found_ids_In db studentIds classId schoolId). auto.
Qed.

(** X25: the two totals stored with an attendance split its records:
    present, late and excused count as present, absent as absent, and the
    totals add up to the number of records. *)
Theorem attendance_totals_split_records (records : list Attendance.AttendanceRecord) :
  (Attendance.totalPresent records + Attendance.totalAbsent records
   = List.length records)%nat /\
  Attendance.totalAbsent records
  = count_occ status_eq_dec (map Attendance.ar_status records) Attendance.ABSENT.
Proof.
  unfold Attendance.totalPresent, Attendance.totalAbsent,
    Attendance.counts_present, Attendance.counts_absent.
  induction records as [| r records [IH1 IH2]]; simpl; [split; reflexivity |].
  destruct (Attendance.ar_status r); simpl; split; try lia;
    match goal with
    | |- context [if ?d then _ else _] => destruct d; congruence
    end.
Qed.

Lemma classroom_primary_key :
  NoDup (map Attendance.sr_id (Attendance.st_rows Sample.classroom)).
Proof. simpl. repeat constructor; simpl; intuition discriminate. Defined.

Lemma validateStudentsInClass_accepts_iff_witness :
  Attendance.validateStudentsInClass Sample.classroom ["s1"; "s2"]
    "class-9A" "school-1" = inr tt /\
  ~ Attendance.enrolled Sample.classroom "class-9A" "school-1" "s3".
Proof.
  pose proof (validateStudentsInClass_accepts_iff Sample.classroom ["s1"; "s2"]
                "class-9A" "school-1" classroom_primary_key eq_refl) as Hok.
  pose proof (validateStudentsInClass_accepts_iff Sample.classroom ["s3"]
                "class-9A" "school-1" classroom_primary_key eq_refl) as Hno.
  split.
  - apply Hok. split.
    + repeat constructor; simpl; intuition discriminate.
    + intros id [<- | [<- | []]]; eexists; simpl; split;
        [left; reflexivity | auto | right; left; reflexivity | auto].
  - intros Hs3.
    assert (H : Attendance.validateStudentsInClass Sample.classroom ["s3"]
                  "class-9A" "school-1" = inr tt).
    { apply Hno. split; [repeat constructor; intros [] |].
      intros id [<- | []]. exact Hs3. }
    discriminate.
Defined.

Lemma validateStudentsInClass_rejects_duplicates_witness :
  Attendance.validateStudentsInClass Sample.classroom ["s1"; "s1"]
    "class-9A" "school-1"
  = inl (RaisedApp ValidationError "Students not found in class: ").
Proof.
  apply (validateStudentsInClass_rejects_duplicates Sample.classroom ["s1"; "s1"]
           "class-9A" "school-1" classroom_primary_key eq_refl).
  - intros id [<- | [<- | []]];
      exists {| Attendance.sr_id := "s1"; Attendance.sr_classId := "class-9A";
                Attendance.sr_schoolId := "school-1" |};
      simpl; auto.
  - intros H. inversion H as [| x l Hnotin _]; subst. apply Hnotin. left. reflexivity.
Defined.

(** ** Queue error listener *)

Lemma on_queue_errors_logged (n : nat) : on_queue_errors n true = ([], true).
Proof.
  induction n as [| n IH]; simpl; [reflexivity |]. rewrite IH. reflexivity.
Qed.

(** X26: however many error events the queue emits, the warning about the
    unreachable backend is printed once, at the first of them; afterwards
    the flag is set and nothing more is printed. *)
Theorem queue_error_warned_once (n : nat) :
  (0 < n)%nat ->
  on_queue_errors n false = (fst (on_queue_error false), true) /\
  on_queue_errors n true = ([], true).
Proof.
  intros Hn. split; [| apply on_queue_errors_logged].
  destruct n as [| n]; [lia |]. simpl.
  rewrite on_queue_errors_logged. reflexivity.
Qed.

Lemma queue_error_warned_once_witness :
  List.length (fst (on_queue_errors 5 false)) = 3%nat /\
  snd (on_queue_errors 5 false) = true.
Proof.
  destruct (queue_error_warned_once 5) as [H _]; [lia |].
  rewrite H. split; reflexivity.
Defined.
